(** * Quiz-chain solver ([app/solver.py]): shallow embedding and properties

    The development follows [app/solver.py]:
    - [PyStr]: the Python [str] operations the solver uses ([lower], [in],
      [strip], [rstrip], [splitlines], [re.search(r"\d+", _)]);
    - [detect_quiz_type], [build_submit_url], the two solvers and
      [solve_quiz_chain] as functions over an explicit event log.

    Text is modelled as [string] over ASCII characters; Python's handling of
    characters above code 127 (Unicode case mapping, Unicode digits and
    spaces) is outside the model.  The numbers of a CSV column are pandas':
    int64 as [Z] with the wrap-around written out, float64 as [spec_float]. *)

From Stdlib Require Import String Ascii List Bool Arith ZArith QArith Lia Lqa SpecFloat.
Import ListNotations.
Open Scope string_scope.

(** ** Python exceptions and fallible results *)

Inductive PyError : Type :=
| ValueError (msg : string)
| RuntimeError (msg : string)
| AttributeError (msg : string)
| KeyError (key : string)
| IndexError (msg : string)
| HTTPStatusError (msg : string)
| OverflowError (msg : string)
| LibraryError (msg : string).     (* raised inside a library or by the renderer *)

(** A computation that either raises or returns. *)
Definition Exc (A : Type) : Type := (PyError + A)%type.

(** ** Python string operations *)

Module PyStr.

Definition code (c : ascii) : nat := nat_of_ascii c.

Definition is_upper (c : ascii) : bool := (65 <=? code c)%nat && (code c <=? 90)%nat.

Definition lower_char (c : ascii) : ascii :=
  if is_upper c then ascii_of_nat (code c + 32) else c.

(** [s.lower()] *)
Fixpoint lower (s : string) : string :=
  match s with
  | EmptyString => EmptyString
  | String c s' => String (lower_char c) (lower s')
  end.

(** [s.startswith(p)] *)
Fixpoint startswith (p s : string) : bool :=
  match p, s with
  | EmptyString, _ => true
  | String _ _, EmptyString => false
  | String a p', String b s' => Ascii.eqb a b && startswith p' s'
  end.

(** [needle in hay] *)
Fixpoint contains (needle hay : string) : bool :=
  startswith needle hay ||
  match hay with
  | EmptyString => false
  | String _ hay' => contains needle hay'
  end.

(** [s.endswith(p)] *)
Fixpoint endswith (p s : string) : bool :=
  String.eqb p s ||
  match s with
  | EmptyString => false
  | String _ s' => endswith p s'
  end.

(** [c.isspace()] on ASCII: tab, LF, VT, FF, CR, FS, GS, RS, US, space. *)
Definition is_space (c : ascii) : bool :=
  let n := code c in
  ((9 <=? n)%nat && (n <=? 13)%nat) || ((28 <=? n)%nat && (n <=? 32)%nat).

Fixpoint all_chars (p : ascii -> bool) (s : string) : bool :=
  match s with
  | EmptyString => true
  | String c s' => p c && all_chars p s'
  end.

Fixpoint lstrip_with (p : ascii -> bool) (s : string) : string :=
  match s with
  | EmptyString => EmptyString
  | String c s' => if p c then lstrip_with p s' else s
  end.

(** Drops the longest suffix of [s] whose characters all satisfy [p]. *)
Fixpoint rstrip_with (p : ascii -> bool) (s : string) : string :=
  match s with
  | EmptyString => EmptyString
  | String c s' =>
      match rstrip_with p s' with
      | EmptyString => if p c then EmptyString else String c EmptyString
      | t => String c t
      end
  end.

(** [s.strip()] *)
Definition strip (s : string) : string := rstrip_with is_space (lstrip_with is_space s).

Definition is_slash (c : ascii) : bool := Ascii.eqb c "/"%char.

(** [s.rstrip("/")] *)
Definition rstrip_slash (s : string) : string := rstrip_with is_slash s.

(** Truthiness of a [str]: non-empty. *)
Definition truthy (s : string) : bool :=
  match s with EmptyString => false | String _ _ => true end.

(** Line boundaries of [str.splitlines] on ASCII: LF, VT, FF, CR, FS, GS, RS
    (CR LF counts as one boundary). *)
Definition is_linebreak (c : ascii) : bool :=
  let n := code c in
  ((10 <=? n)%nat && (n <=? 13)%nat) || ((28 <=? n)%nat && (n <=? 30)%nat).

Definition is_cr (c : ascii) : bool := Ascii.eqb c "013"%char.
Definition is_lf (c : ascii) : bool := Ascii.eqb c "010"%char.

Definition starts_with_lf (s : string) : bool :=
  match s with String c _ => is_lf c | EmptyString => false end.

(** [splitlines_from line s]: the lines of [line + s], where [line] is the part
    of the current line already read.  A CR directly followed by LF is skipped,
    the LF then closes the line. *)
Fixpoint splitlines_from (line s : string) : list string :=
  match s with
  | EmptyString => if truthy line then [line] else []
  | String c s' =>
      if is_cr c && starts_with_lf s' then splitlines_from line s'
      else if is_linebreak c then line :: splitlines_from EmptyString s'
      else splitlines_from (line ++ String c EmptyString) s'
  end.

(** [s.splitlines()] *)
Definition splitlines (s : string) : list string := splitlines_from EmptyString s.

(** [\d] on ASCII. *)
Definition is_digit (c : ascii) : bool := (48 <=? code c)%nat && (code c <=? 57)%nat.

Fixpoint take_while (p : ascii -> bool) (s : string) : string :=
  match s with
  | EmptyString => EmptyString
  | String c s' => if p c then String c (take_while p s') else EmptyString
  end.

(** [re.search(r"\d+", s)]: the match's [group(0)], or [None]. *)
Fixpoint search_digits (s : string) : option string :=
  match s with
  | EmptyString => None
  | String c s' => if is_digit c then Some (take_while is_digit s) else search_digits s'
  end.

End PyStr.

(** ** Classifier *)

(** [detect_quiz_type(html)] *)
Definition detect_quiz_type (html : string) : string :=
  let html_l := PyStr.lower html in
  if PyStr.contains "demo-scrape-data" html_l || PyStr.contains "scrape" html_l then "scrape"
  else if PyStr.contains ".csv" html_l || PyStr.contains "audio" html_l then "audio"
  else "generic".

(** The question types of the specification and the labels the code uses for them. *)
Inductive QuestionType : Type := Scrape | AudioCsv | Generic.

Definition label (q : QuestionType) : string :=
  match q with
  | Scrape => "scrape"
  | AudioCsv => "audio"
  | Generic => "generic"
  end.

(** [needle] occurs in [hay] as a contiguous substring. *)
Definition Occurs (needle hay : string) : Prop :=
  exists pre post, hay = pre ++ needle ++ post.

(** ** Scrape solver: scanning the data page's text *)

(** Lines 74-83 of [solve_scrape_question]: the loop over
    [data_text.splitlines()]. *)
Fixpoint scan_lines (lines : list string) : Exc string :=
  match lines with
  | [] => inl (ValueError "Unable to extract secret code")
  | line :: rest =>
      if negb (PyStr.truthy (PyStr.strip line)) then scan_lines rest
      else match PyStr.search_digits line with
           | Some secret_code => inr secret_code
           | None => scan_lines rest
           end
  end.

Definition extract_secret_code (data_text : string) : Exc string :=
  scan_lines (PyStr.splitlines data_text).

(** ** Audio/CSV solver: the aggregation *)

(** *** The numbers of a column

    pandas keeps a column of integers as int64, where sums wrap around, and
    any other numeric column as float64 (IEEE binary64, [spec_float] with
    precision 53 and exponent bound 1024), where NaN stands for a missing
    value.  Columns of other kinds (bool, uint64) are outside the model. *)

Definition float64 : Type := spec_float.

Definition nan : float64 := S754_nan.

Definition is_nan (f : float64) : bool :=
  match f with
  | S754_nan => true
  | _ => false
  end.

(** The float64 nearest to an integer (ties to even). *)
Definition float64_of_Z (z : Z) : float64 := binary_normalize 53 1024 z 0 false.

Definition int64_min : Z := (-9223372036854775808)%Z.
Definition int64_max : Z := 9223372036854775807%Z.

Definition in_int64 (z : Z) : bool := ((int64_min <=? z) && (z <=? int64_max))%Z.

(** The int64 that an integer is modulo 2^64. *)
Definition wrap_int64 (z : Z) : Z :=
  ((z - int64_min) mod 18446744073709551616 + int64_min)%Z.

(** A number as pandas reads it or numpy hands it back. *)
Inductive Number : Type :=
| NumInt (z : Z)
| NumFloat (f : float64).

(** A cell of a column as [pd.read_csv(..., header=None)] delivers it: an
    int64 (in a column of integers), a float64, a text (in a column pandas
    could not read as numbers), or a missing value. *)
Inductive Cell : Type :=
| CellInt (z : Z)
| CellFloat (f : float64)
| CellText (s : string)
| CellMissing.

(** A numeric series, by its dtype. *)
Inductive Series : Type :=
| Int64Series (values : list Z)
| Float64Series (values : list float64).

(** [values[mask]] *)
Fixpoint select_mask {A : Type} (values : list A) (mask : list bool) : list A :=
  match values, mask with
  | v :: values', b :: mask' =>
      if b then v :: select_mask values' mask' else select_mask values' mask'
  | _, _ => []
  end.

(** The integers of a list of numbers, when all are integers. *)
Fixpoint all_ints (numbers : list Number) : option (list Z) :=
  match numbers with
  | [] => Some []
  | NumInt z :: rest =>
      match all_ints rest with
      | Some zs => Some (z :: zs)
      | None => None
      end
  | NumFloat _ :: _ => None
  end.

Definition number_to_float (n : Number) : float64 :=
  match n with
  | NumInt z => float64_of_Z z
  | NumFloat f => f
  end.

(** [int(x)] of a float: truncation toward zero; infinities and NaN raise. *)
Definition float64_to_int (f : float64) : Exc Z :=
  match f with
  | S754_zero _ => inr 0%Z
  | S754_finite s m e =>
      inr (if s then - Z.shiftl (Zpos m) e else Z.shiftl (Zpos m) e)%Z
  | S754_infinity _ => inl (OverflowError "cannot convert float infinity to integer")
  | S754_nan => inl (ValueError "cannot convert float NaN to integer")
  end.

(** [int(x)] of a numpy scalar. *)
Definition py_int (x : Number) : Exc Z :=
  match x with
  | NumInt z => inr z
  | NumFloat f => float64_to_int f
  end.

Section Aggregation.

(** The number pandas reads from a text cell (an integer within int64 or a
    float64), if it reads one. *)
Variable str_to_number : string -> option Number.

(** numpy's sum of an array of float64; the order of the additions is the
    library's. *)
Variable float64_sum : list float64 -> float64.

(** What coercion makes of a cell: what cannot be read as a number is NaN. *)
Definition coerce_cell (c : Cell) : Number :=
  match c with
  | CellInt z => NumInt z
  | CellFloat f => NumFloat f
  | CellText s =>
      match str_to_number s with
      | Some n => n
      | None => NumFloat nan
      end
  | CellMissing => NumFloat nan
  end.

(** [pd.to_numeric(column, errors="coerce")]: int64 when every cell is an
    integer, float64 otherwise. *)
Definition to_numeric_coerce (column : list Cell) : Series :=
  let numbers := map coerce_cell column in
  match all_ints numbers with
  | Some zs => Int64Series zs
  | None => Float64Series (map number_to_float numbers)
  end.

(** [series >= cutoff], for a cutoff within int64: integers are compared as
    integers; for float64 the cutoff is converted, and NaN compares false. *)
Definition ge_mask (series : Series) (cutoff : Z) : list bool :=
  match series with
  | Int64Series values => map (fun v => (cutoff <=? v)%Z) values
  | Float64Series values => map (fun v => SFleb (float64_of_Z cutoff) v) values
  end.

(** [series[mask]] *)
Definition series_select (series : Series) (mask : list bool) : Series :=
  match series with
  | Int64Series values => Int64Series (select_mask values mask)
  | Float64Series values => Float64Series (select_mask values mask)
  end.

(** [series.sum()]: an int64 sum wraps around; in a float64 sum NaN counts as
    0.0. *)
Definition series_sum (series : Series) : Number :=
  match series with
  | Int64Series values => NumInt (wrap_int64 (fold_left Z.add values 0%Z))
  | Float64Series values =>
      NumFloat (float64_sum (map (fun v => if is_nan v then S754_zero false else v) values))
  end.

(** Lines 119-126 of [solve_audio_csv_question]. *)
Definition cutoff_sum (column : list Cell) (cutoff : Z) : Exc Z :=
  let series := to_numeric_coerce column in
  let mask := ge_mask series cutoff in
  let result := series_sum (series_select series mask) in
  py_int result.

(** A cell is numeric when coercion does not make it NaN. *)
Definition numeric (c : Cell) : bool :=
  match coerce_cell c with
  | NumInt _ => true
  | NumFloat f => negb (is_nan f)
  end.

End Aggregation.

(** ** Parsed HTML: the part of BeautifulSoup the solver uses *)

Inductive AttrValue : Type :=
| AttrStr (s : string)
| AttrList (l : list string).      (* multi-valued attributes such as [class] *)

#[warnings="-register-all"]
Inductive Node : Type :=
| Text (s : string)
| Element (name : string) (attrs : list (string * AttrValue)) (children : list Node).

(** The children of the document. *)
Definition Soup : Type := list Node.

Fixpoint attr_get (key : string) (attrs : list (string * AttrValue)) : option AttrValue :=
  match attrs with
  | [] => None
  | (k, v) :: rest => if String.eqb k key then Some v else attr_get key rest
  end.

(** The value of a single-valued attribute. *)
Definition attr_str (key : string) (attrs : list (string * AttrValue)) : option string :=
  match attr_get key attrs with
  | Some (AttrStr s) => Some s
  | _ => None
  end.

Definition has_class (cls : string) (attrs : list (string * AttrValue)) : bool :=
  match attr_get "class" attrs with
  | Some (AttrList l) => existsb (String.eqb cls) l
  | Some (AttrStr s) => String.eqb cls s
  | None => false
  end.

Definition has_id (id : string) (attrs : list (string * AttrValue)) : bool :=
  match attr_str "id" attrs with
  | Some s => String.eqb s id
  | None => false
  end.

(** [el.text]: the texts below the node, in document order. *)
Fixpoint node_text (n : Node) : string :=
  match n with
  | Text s => s
  | Element _ _ children =>
      (fix go (l : list Node) : string :=
         match l with
         | [] => EmptyString
         | x :: rest => node_text x ++ go rest
         end) children
  end.

(** [soup.get_text()] *)
Definition get_text (soup : Soup) : string :=
  fold_right (fun n acc => node_text n ++ acc) EmptyString soup.

(** First element in document order that [hit] accepts; [inside] tells whether
    some ancestor satisfied [anc]. *)
Fixpoint find_node (anc : string -> list (string * AttrValue) -> bool)
    (hit : bool -> string -> list (string * AttrValue) -> bool)
    (inside : bool) (n : Node) : option Node :=
  match n with
  | Text _ => None
  | Element name attrs children =>
      if hit inside name attrs then Some n
      else
        (fix go (l : list Node) : option Node :=
           match l with
           | [] => None
           | x :: rest =>
               match find_node anc hit (inside || anc name attrs) x with
               | Some e => Some e
               | None => go rest
               end
           end) children
  end.

Fixpoint find_first (anc : string -> list (string * AttrValue) -> bool)
    (hit : bool -> string -> list (string * AttrValue) -> bool)
    (soup : Soup) : option Node :=
  match soup with
  | [] => None
  | n :: rest =>
      match find_node anc hit false n with
      | Some e => Some e
      | None => find_first anc hit rest
      end
  end.

Definition no_ancestor (_ : string) (_ : list (string * AttrValue)) : bool := false.

(** [soup.select_one(".origin")] *)
Definition select_one_origin (soup : Soup) : option Node :=
  find_first no_ancestor (fun _ _ attrs => has_class "origin" attrs) soup.

(** [soup.select_one("#cutoff")] *)
Definition select_one_cutoff (soup : Soup) : option Node :=
  find_first no_ancestor (fun _ _ attrs => has_id "cutoff" attrs) soup.

(** [soup.select_one("#question a")]: an [a] below an element with id [question]. *)
Definition select_one_question_a (soup : Soup) : option Node :=
  find_first (fun _ attrs => has_id "question" attrs)
             (fun inside name _ => inside && String.eqb name "a") soup.

(** [soup.find("a", href=lambda h: h and h.endswith(".csv"))] *)
Definition find_csv_anchor (soup : Soup) : option Node :=
  find_first no_ancestor
    (fun _ name attrs =>
       String.eqb name "a" &&
       match attr_str "href" attrs with
       | Some h => PyStr.truthy h && PyStr.endswith ".csv" h
       | None => false
       end) soup.

(** [el.get(key)] for a single-valued attribute. *)
Definition node_get (key : string) (n : Node) : option string :=
  match n with
  | Element _ attrs _ => attr_str key attrs
  | Text _ => None
  end.

(** ** JSON values, as [response.json()] returns them *)

(** A [dict] is its list of items (keys are distinct).  Numbers are exact
    rationals; [JNull] is [None]. *)
#[warnings="-register-all"]
Inductive JSON : Type :=
| JNull
| JBool (b : bool)
| JNum (q : Q)
| JStr (s : string)
| JArr (items : list JSON)
| JObj (fields : list (string * JSON)).

(** Python truthiness. *)
Definition json_truthy (v : JSON) : bool :=
  match v with
  | JNull => false
  | JBool b => b
  | JNum q => negb (Qeq_bool q 0)
  | JStr s => PyStr.truthy s
  | JArr items => match items with [] => false | _ :: _ => true end
  | JObj fields => match fields with [] => false | _ :: _ => true end
  end.

Fixpoint lookup (key : string) (fields : list (string * JSON)) : option JSON :=
  match fields with
  | [] => None
  | (k, v) :: rest => if String.eqb k key then Some v else lookup key rest
  end.

(** [result.get(key)]: [None] when the key is absent; only a [dict] has [get]. *)
Definition json_get (result : JSON) (key : string) : Exc JSON :=
  match result with
  | JObj fields =>
      match lookup key fields with
      | Some v => inr v
      | None => inr JNull
      end
  | _ => inl (AttributeError "object has no attribute 'get'")
  end.

(** ** The libraries and the outside world *)

(** What [urlparse] returns; the solver reads these two attributes. *)
Record ParseResult : Type := { scheme : string; netloc : string }.

(** An [httpx] response: [raise_for_status()] raises [status_error] if there is one. *)
Record Response : Type := {
  status_error : option PyError;
  content : string;
  text : string
}.

(** A data frame is its list of columns. *)
Definition DataFrame : Type := list (list Cell).

(** Library functions the solver calls; they are not part of the repository.
    A URL argument is whatever value the chain holds, hence [JSON]. *)
Record Library : Type := {
  BeautifulSoup : string -> Soup;                      (* BeautifulSoup(_, "html.parser") *)
  urlparse : JSON -> Exc ParseResult;
  urlunparse : string * string * string * string * string * string -> string;
  urljoin : JSON -> string -> Exc string;
  json_loads : string -> option JSON;                  (* response.json(); None: it raises *)
  read_csv : string -> Exc DataFrame;                  (* pd.read_csv(_, header=None) *)
  str_to_number : string -> option Number;             (* pd.to_numeric on a text cell *)
  float64_sum : list float64 -> float64;               (* numpy's sum of float64 values *)
  int_of_str : string -> option Z                      (* int(_); None: ValueError *)
}.

(** The answer sent to the server: a string or an integer. *)
Inductive Answer : Type :=
| AnswerStr (s : string)
| AnswerInt (z : Z).

Record Payload : Type := {
  p_email : string;
  p_secret : string;
  p_url : JSON;
  p_answer : Answer
}.

(** Calls that leave the process.  A log lists them newest first. *)
Inductive Event : Type :=
| EvClock                                       (* time.time() *)
| EvRender (url : JSON)                         (* fetch_rendered_html_sync(url) *)
| EvGet (url : string)                          (* client.get(url) *)
| EvPost (url : string) (payload : Payload).    (* client.post(url, json=payload) *)

(** The outside world answers a call from the calls made so far. *)
Record World : Type := {
  time : list Event -> Q;
  fetch_rendered_html_sync : list Event -> JSON -> Exc string;
  client_get : list Event -> string -> Exc Response;
  client_post : list Event -> string -> Payload -> Exc Response
}.

Definition with_time (W : World) (t : list Event -> Q) : World :=
  {| time := t;
     fetch_rendered_html_sync := fetch_rendered_html_sync W;
     client_get := client_get W;
     client_post := client_post W |}.

(** ** Computations with a log and exceptions *)

Definition M (A : Type) : Type := list Event -> Exc A * list Event.

Definition ret {A} (a : A) : M A := fun log => (inr a, log).

Definition raise {A} (e : PyError) : M A := fun log => (inl e, log).

Definition bind {A B} (m : M A) (k : A -> M B) : M B :=
  fun log =>
    match m log with
    | (inl e, log') => (inl e, log')
    | (inr a, log') => k a log'
    end.

(** A computation without calls. *)
Definition lift {A} (r : Exc A) : M A := fun log => (r, log).

Notation "x <- m ;; k" := (bind m (fun x => k))
  (at level 61, m at next level, right associativity).

(** A render, a GET or a POST. *)
Definition is_network (e : Event) : bool :=
  match e with
  | EvClock => false
  | _ => true
  end.

Section Solver.

Variable L : Library.
Variable W : World.

(** *** Calls *)

Definition time_time : M Q :=
  fun log => (inr (time W log), EvClock :: log).

Definition render (url : JSON) : M string :=
  fun log => (fetch_rendered_html_sync W log url, EvRender url :: log).

Definition get (url : string) : M Response :=
  fun log => (client_get W log url, EvGet url :: log).

Definition post (url : string) (payload : Payload) : M Response :=
  fun log => (client_post W log url payload, EvPost url payload :: log).

(** *** Target resolver *)

(** Line 40 of [build_submit_url]: the origin element's trimmed text, when
    there is such an element and the text is not empty. *)
Definition origin_override (soup : Soup) : option string :=
  match select_one_origin soup with
  | Some origin_el =>
      if PyStr.truthy (PyStr.strip (node_text origin_el))
      then Some (PyStr.strip (node_text origin_el))
      else None
  | None => None
  end.

(** Lines 37-44 of [build_submit_url]: the origin the submit URL is built on. *)
Definition discover_origin (html : string) (current_url : JSON) : Exc string :=
  let soup := BeautifulSoup L html in
  match origin_override soup with
  | Some origin => inr origin
  | None =>
      match urlparse L current_url with
      | inl e => inl e
      | inr parsed =>
          inr (urlunparse L (scheme parsed, netloc parsed, "", "", "", ""))
      end
  end.

(** [build_submit_url(html, current_url)] *)
Definition build_submit_url (html : string) (current_url : JSON) : Exc string :=
  match discover_origin html current_url with
  | inl e => inl e
  | inr origin => inr (PyStr.rstrip_slash origin ++ "/submit")
  end.

(** *** Solvers *)

(** [solve_scrape_question(html, current_url, client)] *)
Definition solve_scrape_question (html : string) (current_url : JSON) : M string :=
  let soup := BeautifulSoup L html in
  match select_one_question_a soup with
  | None => raise (ValueError "Scrape target link not found")
  | Some link =>
      match node_get "href" link with
      | None => raise (ValueError "Scrape target link not found")
      | Some href =>
          if negb (PyStr.truthy href) then raise (ValueError "Scrape target link not found")
          else
            scrape_url <- lift (urljoin L current_url href) ;;
            data_html <- render (JStr scrape_url) ;;
            let data_text := get_text (BeautifulSoup L data_html) in
            lift (extract_secret_code data_text)
      end
  end.

(** [resp.raise_for_status()] *)
Definition raise_for_status (resp : Response) : Exc unit :=
  match status_error resp with
  | Some e => inl e
  | None => inr tt
  end.

(** [df.iloc[:, 0]] *)
Definition iloc_first_column (df : DataFrame) : Exc (list Cell) :=
  match df with
  | [] => inl (IndexError "single positional indexer is out-of-bounds")
  | column :: _ => inr column
  end.

(** [int(cutoff_el.text.strip()) if cutoff_el else 0] *)
Definition read_cutoff (soup : Soup) : Exc Z :=
  match select_one_cutoff soup with
  | Some cutoff_el =>
      match int_of_str L (PyStr.strip (node_text cutoff_el)) with
      | Some cutoff => inr cutoff
      | None => inl (ValueError "invalid literal for int()")
      end
  | None => inr 0%Z
  end.

(** [solve_audio_csv_question(html, current_url, client)] *)
Definition solve_audio_csv_question (html : string) (current_url : JSON) : M Z :=
  let soup := BeautifulSoup L html in
  match find_csv_anchor soup with
  | None => raise (ValueError "CSV link not found")
  | Some csv_tag =>
      match node_get "href" csv_tag with
      | None => raise (KeyError "href")
      | Some href =>
          csv_url <- lift (urljoin L current_url href) ;;
          resp <- get csv_url ;;
          _ <- lift (raise_for_status resp) ;;
          df <- lift (read_csv L (content resp)) ;;
          cutoff <- lift (read_cutoff soup) ;;
          column <- lift (iloc_first_column df) ;;
          lift (cutoff_sum (str_to_number L) (float64_sum L) column cutoff)
      end
  end.

(** *** Chain engine *)

Definition MAX_DURATION_SEC : Q := 180.

(** The variables of [solve_quiz_chain] that live across iterations. *)
Record ChainState : Type := {
  current_url : JSON;
  start_time : Q;
  email : string;
  secret : string
}.

(** [current_url = next_url] *)
Definition set_current_url (st : ChainState) (next_url : JSON) : ChainState :=
  {| current_url := next_url;
     start_time := start_time st;
     email := email st;
     secret := secret st |}.

(** [make_payload(answer_value)] *)
Definition make_payload (st : ChainState) (answer_value : Answer) : Payload :=
  {| p_email := email st;
     p_secret := secret st;
     p_url := current_url st;
     p_answer := answer_value |}.

(** [{"correct": False, "reason": "timeout or missing url"}] *)
Definition timeout_result : JSON :=
  JObj [("correct", JBool false); ("reason", JStr "timeout or missing url")].

(** [current_url and time.time() - start_time < MAX_DURATION_SEC]: the clock is
    read only when [current_url] is truthy. *)
Definition loop_condition (st : ChainState) : M bool :=
  if json_truthy (current_url st) then
    now <- time_time ;;
    ret (negb (Qle_bool MAX_DURATION_SEC (now - start_time st)))
  else ret false.

(** Lines 176-190: the answer for the detected type. *)
Definition solve (quiz_type html : string) (current_url : JSON) : M Answer :=
  if String.eqb quiz_type "scrape" then
    answer <- solve_scrape_question html current_url ;;
    ret (AnswerStr answer)
  else if String.eqb quiz_type "audio" then
    answer <- solve_audio_csv_question html current_url ;;
    ret (AnswerInt answer)
  else ret (AnswerStr "hello-from-agent").

(** Lines 150-196 of the loop body: up to the server's reply. *)
Definition fetch_solve_submit (st : ChainState) : M Response :=
  html <- render (current_url st) ;;
  submit_url <- lift (build_submit_url html (current_url st)) ;;
  let quiz_type := detect_quiz_type html in
  answer <- solve quiz_type html (current_url st) ;;
  let payload := make_payload st answer in
  post submit_url payload.

(** Lines 199-203: [response.json()], any failure turned into [RuntimeError]. *)
Definition parse_reply (response : Response) : Exc JSON :=
  match json_loads L (text response) with
  | Some result => inr result
  | None => inl (RuntimeError ("Invalid JSON from submit: " ++ text response))
  end.

(** How an iteration ends: [return result], or on to the next URL. *)
Inductive Decision : Type :=
| Return (result : JSON)
| Continue (next_url : JSON).

(** Lines 199-214 of the loop body. *)
Definition handle_reply (response : Response) : Exc Decision :=
  match parse_reply response with
  | inl e => inl e
  | inr result =>
      match json_get result "url" with
      | inl e => inl e
      | inr next_url =>
          if negb (json_truthy next_url) then inr (Return result)
          else inr (Continue next_url)
      end
  end.

(** One run of the loop body. *)
Definition iteration (st : ChainState) : M Decision :=
  response <- fetch_solve_submit st ;;
  lift (handle_reply response).

(** The [while] loop; [None] when [fuel] iterations did not end it. *)
Fixpoint chain_loop (fuel : nat) (st : ChainState) : M (option JSON) :=
  match fuel with
  | O => ret None
  | S fuel' =>
      go_on <- loop_condition st ;;
      if go_on then
        d <- iteration st ;;
        match d with
        | Return result => ret (Some result)
        | Continue next_url => chain_loop fuel' (set_current_url st next_url)
        end
      else ret (Some timeout_result)
  end.

(** [solve_quiz_chain(start_url, email, secret)] *)
Definition solve_quiz_chain (fuel : nat) (start_url email secret : string)
  : M (option JSON) :=
  start_time <- time_time ;;
  chain_loop fuel {| current_url := JStr start_url;
                     start_time := start_time;
                     email := email;
                     secret := secret |}.

(** The loop went from [(st, log)] to [(st', log')] in [n] full iterations. *)
Inductive Iterates : nat -> ChainState -> list Event -> ChainState -> list Event -> Prop :=
| Iterates_zero st log : Iterates 0 st log st log
| Iterates_step n st log log1 next_url log2 st' log' :
    loop_condition st log = (inr true, log1) ->
    iteration st log1 = (inr (Continue next_url), log2) ->
    Iterates n (set_current_url st next_url) log2 st' log' ->
    Iterates (S n) st log st' log'.

End Solver.

(** ** Vocabulary of the statements *)

(** A line feed, a carriage return and a double quote as strings. *)
Definition nl : string := String "010"%char "".
Definition cr : string := String "013"%char "".
Definition dq : string := String "034"%char "".

(** No decimal digit occurs in [s]. *)
Definition digit_free (s : string) : bool :=
  PyStr.all_chars (fun c => negb (PyStr.is_digit c)) s.

(** [s] is empty or starts with a character that is not a digit. *)
Definition no_digit_ahead (s : string) : bool :=
  match s with
  | EmptyString => true
  | String c _ => negb (PyStr.is_digit c)
  end.

(** The lowercased page holds a scrape marker, an audio/CSV marker. *)
Definition scrape_marker (html_l : string) : Prop :=
  Occurs "demo-scrape-data" html_l \/ Occurs "scrape" html_l.

Definition csv_marker (html_l : string) : Prop :=
  Occurs ".csv" html_l \/ Occurs "audio" html_l.

(** *** Absolute URLs

    The shape [scheme://authority...]: a scheme (a letter, then letters, digits,
    "+", "-", "."), "://", a non-empty authority, and URI characters only
    (RFC 3986: unreserved, reserved and "%"). *)

Definition is_alpha (c : ascii) : bool :=
  let n := PyStr.code c in
  ((65 <=? n)%nat && (n <=? 90)%nat) || ((97 <=? n)%nat && (n <=? 122)%nat).

Definition one_of (chars : string) (c : ascii) : bool :=
  PyStr.contains (String c "") chars.

Definition is_scheme_char (c : ascii) : bool :=
  is_alpha c || PyStr.is_digit c || one_of "+-." c.

Definition is_uri_char (c : ascii) : bool :=
  is_alpha c || PyStr.is_digit c || one_of "-._~:/?#[]@!$&'()*+,;=%" c.

Definition is_authority_start (c : ascii) : bool :=
  is_uri_char c && negb (one_of "/?#" c).

(** After the colon: "//", the first character of the authority, the rest. *)
Definition after_colon (s : string) : bool :=
  match s with
  | String a (String b (String h rest)) =>
      PyStr.is_slash a && PyStr.is_slash b && is_authority_start h &&
      PyStr.all_chars is_uri_char rest
  | _ => false
  end.

Fixpoint after_scheme_start (s : string) : bool :=
  match s with
  | EmptyString => false
  | String c s' =>
      if Ascii.eqb c ":"%char then after_colon s'
      else is_scheme_char c && after_scheme_start s'
  end.

Definition is_absolute_url (s : string) : bool :=
  match s with
  | EmptyString => false
  | String c s' => is_alpha c && after_scheme_start s'
  end.

(** ** A library and worlds for the examples

    [sample_library] answers as the real libraries do on the pages, URLs and
    replies the examples use; it is not a model of the libraries beyond them. *)

Definition origin_page : string := "<span class='origin'> https://quiz.example/ </span>".
Definition bad_origin_page : string := "<span class='origin'>quiz server</span>".
Definition question_page : string := "<p>Question: say hello</p>".

Definition sample_BeautifulSoup (html : string) : Soup :=
  if String.eqb html origin_page then
    [Element "span" [("class", AttrList ["origin"])] [Text " https://quiz.example/ "]]
  else if String.eqb html bad_origin_page then
    [Element "span" [("class", AttrList ["origin"])] [Text "quiz server"]]
  else if String.eqb html question_page then
    [Element "p" [] [Text "Question: say hello"]]
  else [].

(** The scheme of a URL and what follows its colon. *)
Fixpoint split_scheme (s : string) : option (string * string) :=
  match s with
  | EmptyString => None
  | String c s' =>
      if Ascii.eqb c ":"%char then Some (EmptyString, s')
      else if is_scheme_char c then
        match split_scheme s' with
        | Some (sch, rest) => Some (String c sch, rest)
        | None => None
        end
      else None
  end.

Fixpoint take_authority (s : string) : string :=
  match s with
  | EmptyString => EmptyString
  | String c s' => if one_of "/?#" c then EmptyString else String c (take_authority s')
  end.

(** [urlparse] on URLs [scheme://host/path] and on relative paths. *)
Definition sample_urlparse (url : JSON) : Exc ParseResult :=
  match url with
  | JStr s =>
      match split_scheme s with
      | Some (String c sch, String a (String b rest)) =>
          if is_alpha c && PyStr.is_slash a && PyStr.is_slash b
          then inr {| scheme := PyStr.lower (String c sch); netloc := take_authority rest |}
          else inr {| scheme := ""; netloc := "" |}
      | _ => inr {| scheme := ""; netloc := "" |}
      end
  | _ => inl (AttributeError "object has no attribute 'decode'")
  end.

(** [urlunparse((scheme, netloc, "", "", "", ""))] *)
Definition sample_urlunparse (parts : string * string * string * string * string * string)
  : string :=
  let '(sch, net, _, _, _, _) := parts in
  (if PyStr.truthy sch then sch ++ ":" else "") ++ (if PyStr.truthy net then "//" ++ net else "").

(** Replies of the quiz server. *)
Definition reply_next : string :=
  "{" ++ dq ++ "correct" ++ dq ++ ": true, " ++ dq ++ "url" ++ dq ++ ": "
      ++ dq ++ "https://quiz.example/q2" ++ dq ++ "}".
Definition reply_done : string :=
  "{" ++ dq ++ "correct" ++ dq ++ ": true, " ++ dq ++ "url" ++ dq ++ ": null}".
Definition reply_broken : string := "<html>502 Bad Gateway</html>".

Definition sample_json_loads (body : string) : option JSON :=
  if String.eqb body reply_next then
    Some (JObj [("correct", JBool true); ("url", JStr "https://quiz.example/q2")])
  else if String.eqb body reply_done then
    Some (JObj [("correct", JBool true); ("url", JNull)])
  else None.

(** The sum of a list of integers. *)
Definition Zsum (zs : list Z) : Z := fold_right Z.add 0%Z zs.

(** The cutoff the page gives: the integer that the trimmed text of the cutoff
    element reads as, or 0 when there is no such element. *)
Definition page_cutoff (L : Library) (soup : Soup) (cutoff : Z) : Prop :=
  match select_one_cutoff soup with
  | Some cutoff_el => int_of_str L (PyStr.strip (node_text cutoff_el)) = Some cutoff
  | None => cutoff = 0%Z
  end.

(** The sum is infinite or NaN. *)
Definition not_finite (f : float64) : Prop :=
  match f with
  | S754_infinity _ => True
  | S754_nan => True
  | _ => False
  end.

(** numpy's sum on the short arrays of the examples: the additions run from
    0.0, left to right. *)
Definition short_float64_sum (values : list float64) : float64 :=
  fold_left (SFadd 53 1024) values (S754_zero false).

Definition sample_library : Library :=
  {| BeautifulSoup := sample_BeautifulSoup;
     urlparse := sample_urlparse;
     urlunparse := sample_urlunparse;
     urljoin := fun _ href => inr href;
     json_loads := sample_json_loads;
     read_csv := fun _ => inl (LibraryError "EmptyDataError");
     str_to_number := fun _ => None;
     float64_sum := short_float64_sum;
     int_of_str := fun _ => None |}.

(** The state [solve_quiz_chain] enters its loop with, the clock having been
    read after the calls of [log]. *)
Definition chain_start (W : World) (start_url email secret : string) (log : list Event)
  : ChainState :=
  {| current_url := JStr start_url;
     start_time := time W log;
     email := email;
     secret := secret |}.

(** Every call that [m] makes satisfies [P]. *)
Definition calls_satisfy {A} (P : Event -> Prop) (m : M A) : Prop :=
  forall log, exists new, snd (m log) = (new ++ log)%list /\ Forall P new.

(** A reply with status 200. *)
Definition ok_response (body : string) : Response :=
  {| status_error := None; content := body; text := body |}.

(** A server with two questions: the reply to the first names the second, the
    reply to the second is [last_reply].  Every page is [question_page]. *)
Definition quiz_world (clock : list Event -> Q) (last_reply : string) : World :=
  {| time := clock;
     fetch_rendered_html_sync := fun _ _ => inr question_page;
     client_get := fun _ _ => inl (LibraryError "ConnectError");
     client_post := fun _ _ payload =>
       match p_url payload with
       | JStr "https://quiz.example/q1" => inr (ok_response reply_next)
       | _ => inr (ok_response last_reply)
       end |}.

(** A clock that advances by [step] seconds with every call. *)
Definition stepping_clock (step : Z) (log : list Event) : Q :=
  inject_Z (step * Z.of_nat (List.length log)).

(** State and log after the first question of [quiz_world] has been answered. *)
Definition second_state (clock : list Event -> Q) : ChainState :=
  {| current_url := JStr "https://quiz.example/q2";
     start_time := clock [];
     email := "student@example.org";
     secret := "s3cret" |}.

Definition first_payload : Payload :=
  {| p_email := "student@example.org";
     p_secret := "s3cret";
     p_url := JStr "https://quiz.example/q1";
     p_answer := AnswerStr "hello-from-agent" |}.

Definition second_payload : Payload :=
  {| p_email := "student@example.org";
     p_secret := "s3cret";
     p_url := JStr "https://quiz.example/q2";
     p_answer := AnswerStr "hello-from-agent" |}.

Definition log_after_first : list Event :=
  [EvPost "https://quiz.example/submit" first_payload;
   EvRender (JStr "https://quiz.example/q1");
   EvClock; EvClock].

Definition log_after_second : list Event :=
  (EvPost "https://quiz.example/submit" second_payload
   :: EvRender (JStr "https://quiz.example/q2")
   :: EvClock :: log_after_first)%list.

(** What an iteration in state [st] may call: anything but the clock, and a
    POST only with the payload of [st]. *)
Definition iteration_event (st : ChainState) (e : Event) : Prop :=
  match e with
  | EvClock => False
  | EvPost _ payload =>
      p_email payload = email st /\
      p_secret payload = secret st /\
      p_url payload = current_url st
  | _ => True
  end.

(** A POST of the loop started in [(st, log)] carries the payload of a state
    the loop went through. *)
Definition loop_event (L : Library) (W : World) (st : ChainState) (log : list Event)
    (e : Event) : Prop :=
  match e with
  | EvPost _ payload =>
      exists n st' log',
        Iterates L W n st log st' log' /\
        p_email payload = email st' /\
        p_secret payload = secret st' /\
        p_url payload = current_url st'
  | _ => True
  end.

(** ** The diagnostic snippet of the loop body (lines 156-157) *)

(** [s[:n]] *)
Fixpoint slice_to (n : nat) (s : string) : string :=
  match n, s with
  | O, _ => EmptyString
  | S _, EmptyString => EmptyString
  | S n', String c s' => String c (slice_to n' s')
  end.

(** [s.replace("\n", " ")] *)
Fixpoint replace_newlines (s : string) : string :=
  match s with
  | EmptyString => EmptyString
  | String c s' =>
      String (if PyStr.is_lf c then " "%char else c) (replace_newlines s')
  end.

(** [snippet = html[:600].replace("\n", " ")] *)
Definition snippet (html : string) : string := replace_newlines (slice_to 600 html).

(** [f"{snippet[:200]}{'...' if len(snippet) > 200 else ''}"] *)
Definition snippet_shown (html : string) : string :=
  slice_to 200 (snippet html) ++
  (if (200 <? String.length (snippet html))%nat then "..." else "").

(** ** The request handler ([app/main.py]) *)

(** [class QuizRequest(BaseModel)]: three required [str] fields. *)
Record QuizRequest : Type := {
  qr_email : string;
  qr_secret : string;
  qr_url : string
}.

(** [raise HTTPException(status_code=..., detail=...)] *)
Record HTTPException : Type := {
  status_code : Z;
  detail : string
}.

(** [qr.secret != EXPECTED_SECRET], where [os.getenv] gives [None] for an unset
    variable and a [str] never equals [None]. *)
Definition secret_differs (given : string) (expected : option string) : bool :=
  match expected with
  | Some s => negb (String.eqb given s)
  | None => true
  end.

(** The handler's reply when the chain has run. *)
Definition ok_reply : JSON :=
  JObj [("status", JStr "ok");
        ("message", JStr "Quiz processing attempted (see server logs for details)")].

Section Handler.

Variable L : Library.
Variable W : World.

(** [EXPECTED_SECRET = os.getenv("LLM_QUIZ_SECRET")] *)
Variable EXPECTED_SECRET : option string.

(** pydantic's validation of a value for a [str] field; [None]: it is refused. *)
Variable validate_str : JSON -> option string.

(** [QuizRequest] built from the keys of [data]; [None] when that raises (no
    mapping, a field missing or refused).  Further keys are ignored. *)
Definition validate_request (data : JSON) : option QuizRequest :=
  match data with
  | JObj fields =>
      match lookup "email" fields, lookup "secret" fields, lookup "url" fields with
      | Some e, Some s, Some u =>
          match validate_str e, validate_str s, validate_str u with
          | Some e', Some s', Some u' =>
              Some {| qr_email := e'; qr_secret := s'; qr_url := u' |}
          | _, _, _ => None
          end
      | _, _, _ => None
      end
  | _ => None
  end.

(** [handle_quiz(request)] on the request's body: [inl] is the [HTTPException]
    raised, [inr] the reply returned; [None] when the chain's fuel ran out. *)
Definition handle_quiz (fuel : nat) (body : string)
  : M (option (HTTPException + JSON)) :=
  match json_loads L body with
  | None => ret (Some (inl {| status_code := 400; detail := "Invalid JSON" |}))
  | Some data =>
      match validate_request data with
      | None =>
          ret (Some (inl {| status_code := 400; detail := "Missing/invalid fields" |}))
      | Some qr =>
          if secret_differs (qr_secret qr) EXPECTED_SECRET then
            ret (Some (inl {| status_code := 403; detail := "Invalid secret" |}))
          else
            result <- solve_quiz_chain L W fuel (qr_url qr) (qr_email qr) (qr_secret qr) ;;
            match result with
            | Some _ => ret (Some (inr ok_reply))
            | None => ret None
            end
      end
  end.

End Handler.

(** ** Vocabulary of further statements *)

(** What a solver may add to the log: nothing, one render, or one GET. *)
Definition solver_trace (t : list Event) : Prop :=
  t = [] \/ (exists url, t = [EvRender (JStr url)]) \/ (exists url, t = [EvGet url]).

(** What the submission may add to the log: nothing, or the POST of the
    state's payload. *)
Definition post_trace (st : ChainState) (t : list Event) : Prop :=
  t = [] \/ exists submit_url answer, t = [EvPost submit_url (make_payload st answer)].

Definition is_post (e : Event) : bool :=
  match e with EvPost _ _ => true | _ => false end.

Definition is_clock (e : Event) : bool :=
  match e with EvClock => true | _ => false end.

Definition count_posts (log : list Event) : nat := List.length (filter is_post log).
Definition count_clock (log : list Event) : nat := List.length (filter is_clock log).

(** A POST of the loop started in [(st, log)] belongs to an iteration whose
    check at the top of the loop read less than the budget. *)
Definition budget_event (L : Library) (W : World) (st : ChainState) (log : list Event)
    (e : Event) : Prop :=
  match e with
  | EvPost _ payload =>
      exists n st' log',
        Iterates L W n st log st' log' /\
        p_url payload = current_url st' /\
        json_truthy (current_url st') = true /\
        time W log' - start_time st < MAX_DURATION_SEC
  | _ => True
  end.

(** ** Further pages, a library and a world for the examples *)

Definition scrape_page : string :=
  "<div id='question'><a href='/demo-scrape-data?email=me'>Scrape this page</a></div>".
Definition data_page : string := "<p>Secret code is 32000 today</p>".
Definition audio_page : string :=
  "<a href='/files/data.csv'>Listen</a><span id='cutoff'> 10 </span>".
Definition audio_page_no_cutoff : string := "<a href='/files/data.csv'>Listen</a>".
Definition blank_origin_page : string := "<span class='origin'>   </span><p>Question</p>".

Definition demo_BeautifulSoup (html : string) : Soup :=
  if String.eqb html scrape_page then
    [Element "div" [("id", AttrStr "question")]
       [Element "a" [("href", AttrStr "/demo-scrape-data?email=me")] [Text "Scrape this page"]]]
  else if String.eqb html data_page then
    [Element "p" [] [Text "Secret code is 32000 today"]]
  else if String.eqb html audio_page then
    [Element "a" [("href", AttrStr "/files/data.csv")] [Text "Listen"];
     Element "span" [("id", AttrStr "cutoff")] [Text " 10 "]]
  else if String.eqb html audio_page_no_cutoff then
    [Element "a" [("href", AttrStr "/files/data.csv")] [Text "Listen"]]
  else if String.eqb html blank_origin_page then
    [Element "span" [("class", AttrList ["origin"])] [Text "   "];
     Element "p" [] [Text "Question"]]
  else sample_BeautifulSoup html.

(** The CSV file of the examples: one column, one cell that is no number. *)
Definition csv_body : string := "-5" ++ nl ++ "10" ++ nl ++ "n/a" ++ nl ++ "20" ++ nl.

Definition demo_read_csv (content : string) : Exc DataFrame :=
  if String.eqb content csv_body then
    inr [[CellText "-5"; CellText "10"; CellText "n/a"; CellText "20"]]
  else inl (LibraryError "EmptyDataError").

Definition demo_str_to_number (s : string) : option Number :=
  if String.eqb s "-5" then Some (NumInt (-5))
  else if String.eqb s "10" then Some (NumInt 10)
  else if String.eqb s "20" then Some (NumInt 20)
  else None.

(** A request body with the three fields. *)
Definition request_body (secret : string) : string :=
  "{" ++ dq ++ "email" ++ dq ++ ": " ++ dq ++ "student@example.org" ++ dq ++ ", "
      ++ dq ++ "secret" ++ dq ++ ": " ++ dq ++ secret ++ dq ++ ", "
      ++ dq ++ "url" ++ dq ++ ": " ++ dq ++ "https://quiz.example/q1" ++ dq ++ "}".

Definition demo_json_loads (body : string) : option JSON :=
  if String.eqb body "[]" then Some (JArr [])
  else if String.eqb body (request_body "s3cret") then
    Some (JObj [("email", JStr "student@example.org");
                ("secret", JStr "s3cret");
                ("url", JStr "https://quiz.example/q1")])
  else if String.eqb body (request_body "guess") then
    Some (JObj [("email", JStr "student@example.org");
                ("secret", JStr "guess");
                ("url", JStr "https://quiz.example/q1")])
  else sample_json_loads body.

Definition demo_library : Library :=
  {| BeautifulSoup := demo_BeautifulSoup;
     urlparse := sample_urlparse;
     urlunparse := sample_urlunparse;
     urljoin := fun base href =>
       match base with
       | JStr _ => inr ("https://quiz.example" ++ href)
       | _ => inl (LibraryError "TypeError")
       end;
     json_loads := demo_json_loads;
     read_csv := demo_read_csv;
     str_to_number := demo_str_to_number;
     float64_sum := short_float64_sum;
     int_of_str := fun s => if String.eqb s "10" then Some 10%Z else None |}.

(** A server whose pages are chosen by URL; every download is [csv_body],
    every submission is answered by [reply_done]. *)
Definition demo_world : World :=
  {| time := stepping_clock 1;
     fetch_rendered_html_sync := fun _ url =>
       match url with
       | JStr "https://quiz.example/scrape" => inr scrape_page
       | JStr "https://quiz.example/demo-scrape-data?email=me" => inr data_page
       | JStr "https://quiz.example/audio" => inr audio_page
       | JStr "https://quiz.example/audio0" => inr audio_page_no_cutoff
       | _ => inr question_page
       end;
     client_get := fun _ _ => inr (ok_response csv_body);
     client_post := fun _ _ _ => inr (ok_response reply_done) |}.

(** pydantic 2 takes a string for a [str] field and nothing else. *)
Definition strings_only (v : JSON) : option string :=
  match v with
  | JStr s => Some s
  | _ => None
  end.

(** A server that renders [question_page] for every URL and cannot be reached
    for submissions. *)
Definition offline_world : World :=
  {| time := stepping_clock 1;
     fetch_rendered_html_sync := fun _ _ => inr question_page;
     client_get := fun _ _ => inl (LibraryError "ConnectError");
     client_post := fun _ _ _ => inl (LibraryError "ConnectError") |}.

(** The element is one that [hit] accepts, below an ancestor or not. *)
Definition accepted (hit : bool -> string -> list (string * AttrValue) -> bool)
    (e : Node) : Prop :=
  exists inside name attrs children,
    e = Element name attrs children /\ hit inside name attrs = true.

(** A CSV file whose integers add up to more than int64 holds. *)
Definition big_csv_body : string := "9223372036854775807" ++ nl ++ "1" ++ nl.

Definition overflow_library : Library :=
  {| BeautifulSoup := demo_BeautifulSoup;
     urlparse := sample_urlparse;
     urlunparse := sample_urlunparse;
     urljoin := urljoin demo_library;
     json_loads := demo_json_loads;
     read_csv := fun content =>
       if String.eqb content big_csv_body
       then inr [[CellInt 9223372036854775807; CellInt 1]]
       else demo_read_csv content;
     str_to_number := demo_str_to_number;
     float64_sum := short_float64_sum;
     int_of_str := int_of_str demo_library |}.

(** The server of [demo_world], with [big_csv_body] as the file. *)
Definition overflow_world : World :=
  {| time := time demo_world;
     fetch_rendered_html_sync := fetch_rendered_html_sync demo_world;
     client_get := fun _ _ => inr (ok_response big_csv_body);
     client_post := client_post demo_world |}.

(** * Properties *)

(** ** Strings *)

Lemma append_empty_r (s : string) : s ++ "" = s.
Proof. induction s as [|c s IH]; simpl; [reflexivity | now rewrite IH]. Qed.

Lemma append_assoc (a b c : string) : (a ++ b) ++ c = a ++ b ++ c.
Proof. induction a as [|x a IH]; simpl; [reflexivity | now rewrite IH]. Qed.

Lemma startswith_spec (p s : string) :
  PyStr.startswith p s = true <-> exists post, s = p ++ post.
Proof.
  revert s; induction p as [|a p IH]; intros s; simpl.
  - split; [intros _; now exists s | reflexivity].
  - destruct s as [|b s].
    + split; [discriminate | intros [post H]; discriminate].
    + rewrite andb_true_iff, Ascii.eqb_eq, IH. split.
      * intros [-> [post ->]]. now exists post.
      * intros [post H]. injection H as -> ->. split; [reflexivity | now exists post].
Qed.

(** [contains] decides occurrence as a substring. *)
Lemma contains_spec (needle hay : string) :
  PyStr.contains needle hay = true <-> Occurs needle hay.
Proof.
  unfold Occurs. induction hay as [|c hay IH].
  - simpl. rewrite orb_false_r, startswith_spec. split.
    + intros [post H]. exists "", post. exact H.
    + intros [pre [post H]]. destruct pre; simpl in H.
      * now exists post.
      * discriminate.
  - cbn [PyStr.contains]. rewrite orb_true_iff, startswith_spec, IH. split.
    + intros [[post H] | [pre [post H]]].
      * exists "", post. exact H.
      * exists (String c pre), post. simpl. now rewrite H.
    + intros [pre [post H]]. destruct pre as [|x pre]; simpl in H.
      * left. now exists post.
      * right. injection H as _ H. now exists pre, post.
Qed.

Lemma contains_false (needle hay : string) :
  PyStr.contains needle hay = false <-> ~ Occurs needle hay.
Proof.
  rewrite <- contains_spec. destruct (PyStr.contains needle hay); split; intros H.
  - discriminate.
  - now contradiction H.
  - discriminate.
  - reflexivity.
Qed.

Lemma endswith_spec (p s : string) :
  PyStr.endswith p s = true <-> exists pre, s = pre ++ p.
Proof.
  induction s as [|c s IH]; cbn [PyStr.endswith].
  - rewrite orb_false_r, String.eqb_eq. split.
    + intros ->. now exists "".
    + intros [pre H]. destruct pre; simpl in H; [now symmetry | discriminate].
  - rewrite orb_true_iff, String.eqb_eq, IH. split.
    + intros [-> | [pre ->]]; [now exists "" | now exists (String c pre)].
    + intros [pre H]. destruct pre as [|x pre]; simpl in H.
      * now left.
      * right. injection H as _ H. now exists pre.
Qed.

Lemma rstrip_with_keep (p : ascii -> bool) (c : ascii) (s : string) :
  p c = false -> PyStr.rstrip_with p (String c s) = String c (PyStr.rstrip_with p s).
Proof.
  intros H. simpl. destruct (PyStr.rstrip_with p s); [now rewrite H | reflexivity].
Qed.

(** What [rstrip] returns is a prefix of its argument, the rest is stripped characters. *)
Lemma rstrip_with_prefix (p : ascii -> bool) (s : string) :
  exists tail, s = PyStr.rstrip_with p s ++ tail /\ PyStr.all_chars p tail = true.
Proof.
  induction s as [|c s [tail [H1 H2]]]; simpl.
  - now exists "".
  - destruct (PyStr.rstrip_with p s) as [|d t] eqn:E.
    + destruct (p c) eqn:Hc.
      * exists (String c s). simpl in *. subst tail. now rewrite Hc, H2.
      * exists tail. simpl in *. subst tail. now split.
    + exists tail. simpl in *. split; [now f_equal | exact H2].
Qed.

(** What [rstrip] returns does not end in a stripped character. *)
Lemma rstrip_with_last (p : ascii -> bool) (s t : string) (c : ascii) :
  PyStr.rstrip_with p s = t ++ String c "" -> p c = false.
Proof.
  revert t; induction s as [|x s IH]; intros t H; simpl in H.
  - destruct t; discriminate.
  - destruct (PyStr.rstrip_with p s) as [|d r] eqn:E.
    + destruct (p x) eqn:Hx.
      * destruct t; discriminate.
      * destruct t as [|y t]; simpl in H.
        -- now injection H as <-.
        -- injection H as _ H. destruct t; discriminate.
    + destruct t as [|y t]; simpl in H.
      * discriminate.
      * injection H as _ H. now apply (IH t).
Qed.

(** Stripping ignores trailing stripped characters. *)
Lemma rstrip_with_app_stripped (p : ascii -> bool) (s tail : string) :
  PyStr.all_chars p tail = true ->
  PyStr.rstrip_with p (s ++ tail) = PyStr.rstrip_with p s.
Proof.
  intros Ht. induction s as [|c s IH]; simpl.
  - induction tail as [|d tail IHt]; simpl; [reflexivity|].
    simpl in Ht. apply andb_true_iff in Ht as [Hd Ht]. now rewrite (IHt Ht), Hd.
  - now rewrite IH.
Qed.

Lemma all_chars_app (p : ascii -> bool) (a b : string) :
  PyStr.all_chars p (a ++ b) = PyStr.all_chars p a && PyStr.all_chars p b.
Proof. induction a as [|c a IH]; simpl; [reflexivity | now rewrite IH, andb_assoc]. Qed.

Lemma length_append (a b : string) : String.length (a ++ b) = (String.length a + String.length b)%nat.
Proof. induction a as [|c a IH]; simpl; [reflexivity | now rewrite IH]. Qed.

Lemma append_cancel_r (a b t : string) : a ++ t = b ++ t -> a = b.
Proof.
  revert b; induction a as [|x a IH]; intros b E; destruct b as [|y b]; simpl in E.
  - reflexivity.
  - apply (f_equal String.length) in E. simpl in E. rewrite length_append in E. lia.
  - apply (f_equal String.length) in E. simpl in E. rewrite length_append in E. lia.
  - injection E as -> E. f_equal. now apply IH.
Qed.

(** ** Classifier *)

Lemma or_contains_spec (a b s : string) :
  PyStr.contains a s || PyStr.contains b s = true <-> Occurs a s \/ Occurs b s.
Proof. now rewrite orb_true_iff, !contains_spec. Qed.

(** The three ways [detect_quiz_type] returns. *)
Lemma detect_quiz_type_cases (html : string) :
  let html_l := PyStr.lower html in
  (detect_quiz_type html = "scrape" /\ scrape_marker html_l) \/
  (detect_quiz_type html = "audio" /\ ~ scrape_marker html_l /\ csv_marker html_l) \/
  (detect_quiz_type html = "generic" /\ ~ scrape_marker html_l /\ ~ csv_marker html_l).
Proof.
  intros html_l. unfold detect_quiz_type, scrape_marker, csv_marker. fold html_l.
  destruct (PyStr.contains "demo-scrape-data" html_l || PyStr.contains "scrape" html_l) eqn:E1.
  - left. split; [reflexivity | now apply or_contains_spec].
  - assert (N1 : ~ (Occurs "demo-scrape-data" html_l \/ Occurs "scrape" html_l)).
    { intros H. apply or_contains_spec in H. congruence. }
    destruct (PyStr.contains ".csv" html_l || PyStr.contains "audio" html_l) eqn:E2.
    + right; left. repeat split; [exact N1 | now apply or_contains_spec].
    + right; right. repeat split; [exact N1 |].
      intros H. apply or_contains_spec in H. congruence.
Qed.

Lemma label_injective (q q' : QuestionType) : label q = label q' -> q = q'.
Proof. destruct q, q'; simpl; intros H; try reflexivity; discriminate. Qed.

(** C2. Classification is total and deterministic: for every HTML string
    [detect_quiz_type] returns the label of exactly one question type.  It is
    Scrape exactly when the lowercased HTML contains "demo-scrape-data" or
    "scrape"; AudioCsv exactly when it does not and contains ".csv" or "audio";
    Generic otherwise.  So a page with a scrape marker and ".csv" is Scrape, and
    two pages that agree after lowercasing get the same type. *)
Theorem C2_classification (html : string) :
  let html_l := PyStr.lower html in
  (exists! q, detect_quiz_type html = label q) /\
  (detect_quiz_type html = label Scrape <-> scrape_marker html_l) /\
  (detect_quiz_type html = label AudioCsv <-> ~ scrape_marker html_l /\ csv_marker html_l) /\
  (detect_quiz_type html = label Generic <-> ~ scrape_marker html_l /\ ~ csv_marker html_l) /\
  (scrape_marker html_l -> Occurs ".csv" html_l -> detect_quiz_type html = label Scrape) /\
  (forall html', PyStr.lower html' = html_l -> detect_quiz_type html' = detect_quiz_type html).
Proof.
  intros html_l. pose proof (detect_quiz_type_cases html) as H. fold html_l in H. simpl in H.
  assert (HS : detect_quiz_type html = label Scrape <-> scrape_marker html_l).
  { simpl. destruct H as [[E M] | [[E [N M]] | [E [N M]]]]; rewrite E;
      split; intros X; try discriminate; try assumption; try reflexivity; now contradiction N. }
  assert (HA : detect_quiz_type html = label AudioCsv <->
               ~ scrape_marker html_l /\ csv_marker html_l).
  { simpl. destruct H as [[E M] | [[E [N M]] | [E [N M]]]]; rewrite E; split; intros X;
      try discriminate; try reflexivity; try (now split).
    - destruct X as [X _]. now contradiction X.
    - destruct X as [_ X]. now contradiction N. }
  assert (HG : detect_quiz_type html = label Generic <->
               ~ scrape_marker html_l /\ ~ csv_marker html_l).
  { simpl. destruct H as [[E M] | [[E [N M]] | [E [N M]]]]; rewrite E; split; intros X;
      try discriminate; try reflexivity; try (now split).
    - destruct X as [X _]. now contradiction X.
    - destruct X as [_ X]. now contradiction X. }
  split; [| split; [exact HS | split; [exact HA | split; [exact HG | split]]]].
  - destruct H as [[E M] | [[E [N M]] | [E [N M]]]];
      [exists Scrape | exists AudioCsv | exists Generic];
      (split; [exact E | intros q' Hq; apply label_injective; simpl; congruence]).
  - intros M _. now apply HS.
  - intros html' E. unfold detect_quiz_type. now rewrite E.
Qed.

(** Upper-case markers count, and the scrape marker wins over ".csv". *)
Example detect_quiz_type_scrape_over_csv :
  detect_quiz_type "<a href='/DEMO-SCRAPE-DATA?file=x.csv'>Scrape</a>" = "scrape".
Proof. reflexivity. Qed.

Example detect_quiz_type_audio :
  detect_quiz_type "<a href='Data.CSV'>listen</a>" = "audio".
Proof. reflexivity. Qed.

Example detect_quiz_type_generic :
  detect_quiz_type "<p>What is 2 + 2?</p>" = "generic".
Proof. reflexivity. Qed.

(** ** Scrape solver *)

Lemma take_while_split (p : ascii -> bool) (s : string) :
  exists rest,
    s = PyStr.take_while p s ++ rest /\
    PyStr.all_chars p (PyStr.take_while p s) = true /\
    match rest with String c _ => p c = false | EmptyString => True end.
Proof.
  induction s as [|c s [rest [H1 [H2 H3]]]]; simpl.
  - now exists "".
  - destruct (p c) eqn:Hc.
    + exists rest. simpl. rewrite Hc, H2. repeat split; [now f_equal | exact H3].
    + exists (String c s). now repeat split.
Qed.

Lemma search_digits_none (s : string) :
  PyStr.search_digits s = None -> digit_free s = true.
Proof.
  unfold digit_free. induction s as [|c s IH]; simpl; [reflexivity|].
  destruct (PyStr.is_digit c); [discriminate | exact IH].
Qed.

(** The match of [\d+] is the leftmost maximal run of digits. *)
Lemma search_digits_some (s m : string) :
  PyStr.search_digits s = Some m ->
  exists pre post,
    s = pre ++ m ++ post /\
    digit_free pre = true /\
    PyStr.truthy m = true /\
    PyStr.all_chars PyStr.is_digit m = true /\
    no_digit_ahead post = true.
Proof.
  induction s as [|c s IH]; simpl; [discriminate|].
  destruct (PyStr.is_digit c) eqn:Hc.
  - intros H. injection H as <-.
    destruct (take_while_split PyStr.is_digit s) as [rest [H1 [H2 H3]]].
    exists "", rest. simpl. rewrite Hc, H2. repeat split.
    + now f_equal.
    + destruct rest; simpl; [reflexivity | now rewrite H3].
  - intros H. destruct (IH H) as [pre [post [E [P1 [P2 [P3 P4]]]]]].
    exists (String c pre), post. unfold digit_free in *. simpl. rewrite Hc, P1.
    repeat split; try assumption. now f_equal.
Qed.

Lemma lstrip_with_split (p : ascii -> bool) (s : string) :
  exists head, s = head ++ PyStr.lstrip_with p s /\ PyStr.all_chars p head = true.
Proof.
  induction s as [|c s [head [H1 H2]]]; simpl.
  - now exists "".
  - destruct (p c) eqn:Hc.
    + exists (String c head). simpl. rewrite Hc, H2. split; [now f_equal | reflexivity].
    + now exists "".
Qed.

Lemma space_not_digit (c : ascii) : PyStr.is_space c = true -> PyStr.is_digit c = false.
Proof.
  unfold PyStr.is_space, PyStr.is_digit. intros H.
  apply orb_true_iff in H as [H | H]; apply andb_true_iff in H as [H1 H2];
    apply Nat.leb_le in H1, H2; apply andb_false_iff; left; apply Nat.leb_gt; lia.
Qed.

Lemma all_space_digit_free (s : string) :
  PyStr.all_chars PyStr.is_space s = true -> digit_free s = true.
Proof.
  unfold digit_free. induction s as [|c s IH]; simpl; [reflexivity|].
  intros H. apply andb_true_iff in H as [H1 H2].
  now rewrite (space_not_digit _ H1), IH.
Qed.

(** A line that strips to nothing holds no digit: skipping it loses no match. *)
Lemma blank_line_digit_free (line : string) :
  PyStr.truthy (PyStr.strip line) = false -> digit_free line = true.
Proof.
  unfold PyStr.strip. intros H.
  destruct (lstrip_with_split PyStr.is_space line) as [head [H1 H2]].
  destruct (rstrip_with_prefix PyStr.is_space (PyStr.lstrip_with PyStr.is_space line))
    as [tail [H3 H4]].
  destruct (PyStr.rstrip_with PyStr.is_space (PyStr.lstrip_with PyStr.is_space line));
    [| discriminate].
  simpl in H3. apply all_space_digit_free. rewrite H1, H3, all_chars_app. now rewrite H2, H4.
Qed.


(** What the scan over the lines returns. *)
Lemma scan_lines_spec (lines : list string) :
  match scan_lines lines with
  | inr secret_code =>
      exists before line after,
        lines = (before ++ line :: after)%list /\
        Forall (fun l => digit_free l = true) before /\
        PyStr.search_digits line = Some secret_code
  | inl e =>
      e = ValueError "Unable to extract secret code" /\
      Forall (fun l => digit_free l = true) lines
  end.
Proof.
  induction lines as [|line rest IH]; simpl.
  - now split.
  - destruct (negb (PyStr.truthy (PyStr.strip line))) eqn:B.
    + apply negb_true_iff, blank_line_digit_free in B.
      destruct (scan_lines rest) as [e | code].
      * destruct IH as [-> IH]. split; [reflexivity | now constructor].
      * destruct IH as [before [l [after [E [F S]]]]].
        exists (line :: before), l, after. simpl. rewrite E. split; [reflexivity|].
        split; [now constructor | exact S].
    + destruct (PyStr.search_digits line) as [code |] eqn:S.
      * exists [], line, rest. now repeat split.
      * apply search_digits_none in S.
        destruct (scan_lines rest) as [e | code].
        -- destruct IH as [-> IH]. split; [reflexivity | now constructor].
        -- destruct IH as [before [l [after [E [F S']]]]].
           exists (line :: before), l, after. simpl. rewrite E. split; [reflexivity|].
           split; [now constructor | exact S'].
Qed.


Example splitlines_sample :
  PyStr.splitlines ("foo" ++ nl ++ nl ++ "bar42baz" ++ nl) = ["foo"; ""; "bar42baz"].
Proof. reflexivity. Qed.

Example splitlines_crlf :
  PyStr.splitlines ("a" ++ cr ++ nl ++ "b" ++ cr ++ "c") = ["a"; "b"; "c"].
Proof. reflexivity. Qed.

Example extract_secret_code_two_runs :
  extract_secret_code ("code: 32000 (not 7)" ++ nl ++ "99") = inr "32000".
Proof. reflexivity. Qed.

Example extract_secret_code_nothing :
  extract_secret_code ("no digits" ++ nl ++ "here") =
  inl (ValueError "Unable to extract secret code").
Proof. reflexivity. Qed.

(** ** Audio/CSV solver *)

Lemma select_mask_map {A : Type} (p : A -> bool) (values : list A) :
  select_mask values (map p values) = filter p values.
Proof.
  induction values as [|v values IH]; [reflexivity|].
  cbn. rewrite IH. now destruct (p v).
Qed.

Lemma fold_left_add_Zsum (zs : list Z) (acc : Z) :
  fold_left Z.add zs acc = (acc + Zsum zs)%Z.
Proof.
  revert acc; induction zs as [|z zs IH]; intros acc; cbn; [lia|].
  rewrite IH. unfold Zsum. lia.
Qed.

(** Within int64 nothing wraps. *)
Lemma wrap_int64_small (z : Z) : in_int64 z = true -> wrap_int64 z = z.
Proof.
  unfold in_int64, wrap_int64, int64_min, int64_max. intros H.
  apply andb_true_iff in H as [H1 H2]. apply Z.leb_le in H1, H2.
  rewrite Z.mod_small; lia.
Qed.

Lemma wrap_int64_range (z : Z) : in_int64 (wrap_int64 z) = true.
Proof.
  unfold in_int64, wrap_int64, int64_min, int64_max.
  pose proof (Z.mod_pos_bound (z - -9223372036854775808) 18446744073709551616 eq_refl) as H.
  apply andb_true_iff. split; apply Z.leb_le; lia.
Qed.

(** NaN is not at least anything. *)
Lemma SFleb_nan (c : float64) : SFleb c S754_nan = false.
Proof. now destruct c. Qed.

Lemma filter_ge_no_nan (c : float64) (values : list float64) :
  Forall (fun v => is_nan v = false) (filter (SFleb c) values).
Proof.
  apply Forall_forall. intros v H. apply filter_In in H as [_ H].
  destruct v; try reflexivity. now rewrite SFleb_nan in H.
Qed.

Lemma nan_to_zero_id (values : list float64) :
  Forall (fun v => is_nan v = false) values ->
  map (fun v => if is_nan v then S754_zero false else v) values = values.
Proof.
  induction 1 as [|v values Hv _ IH]; [reflexivity|]. cbn. now rewrite Hv, IH.
Qed.

Section AggregationFacts.

Variable str_to_number : string -> option Number.
Variable float64_sum : list float64 -> float64.

(** A column of integers is an int64 series. *)
Lemma to_numeric_coerce_integers (zs : list Z) :
  to_numeric_coerce str_to_number (map CellInt zs) = Int64Series zs.
Proof.
  unfold to_numeric_coerce. cbn zeta.
  assert (H : all_ints (map (coerce_cell str_to_number) (map CellInt zs)) = Some zs).
  { induction zs as [|z zs IH]; [reflexivity|]. cbn. cbn in IH. now rewrite IH. }
  now rewrite H.
Qed.

(** The values of a float64 series are the coerced cells. *)
Lemma to_numeric_coerce_floats (column : list Cell) (floats : list float64) :
  to_numeric_coerce str_to_number column = Float64Series floats ->
  floats = map (fun c => number_to_float (coerce_cell str_to_number c)) column.
Proof.
  unfold to_numeric_coerce. cbn zeta.
  destruct (all_ints (map (coerce_cell str_to_number) column)); [discriminate|].
  intros H. injection H as <-. now rewrite map_map.
Qed.

(** What cannot be read as a number is coerced to NaN. *)
Lemma numeric_false_nan (c : Cell) :
  numeric str_to_number c = false ->
  number_to_float (coerce_cell str_to_number c) = nan.
Proof.
  unfold numeric. destruct (coerce_cell str_to_number c) as [z | f]; [discriminate|].
  cbn. destruct f; try discriminate. reflexivity.
Qed.

(** On an int64 series: the wrapped sum of the entries from the cutoff up. *)
Lemma cutoff_sum_int64 (column : list Cell) (zs : list Z) (cutoff : Z) :
  to_numeric_coerce str_to_number column = Int64Series zs ->
  cutoff_sum str_to_number float64_sum column cutoff =
  inr (wrap_int64 (Zsum (filter (fun z => (cutoff <=? z)%Z) zs))).
Proof.
  intros H. unfold cutoff_sum. cbn zeta. rewrite H. cbn.
  now rewrite select_mask_map, fold_left_add_Zsum.
Qed.

(** On a float64 series: [int] of numpy's sum of the values from the cutoff up. *)
Lemma cutoff_sum_float64 (column : list Cell) (floats : list float64) (cutoff : Z) :
  to_numeric_coerce str_to_number column = Float64Series floats ->
  cutoff_sum str_to_number float64_sum column cutoff =
  float64_to_int (float64_sum (filter (SFleb (float64_of_Z cutoff)) floats)).
Proof.
  intros H. unfold cutoff_sum. cbn zeta. rewrite H. cbn.
  now rewrite select_mask_map, (nan_to_zero_id _ (filter_ge_no_nan _ _)).
Qed.

(** The aggregation raises only in [int], on a float64 sum that is not finite. *)
Lemma cutoff_sum_raises (column : list Cell) (cutoff : Z) (e : PyError) :
  cutoff_sum str_to_number float64_sum column cutoff = inl e ->
  exists floats,
    to_numeric_coerce str_to_number column = Float64Series floats /\
    not_finite (float64_sum (filter (SFleb (float64_of_Z cutoff)) floats)).
Proof.
  destruct (to_numeric_coerce str_to_number column) as [zs | floats] eqn:E.
  - rewrite (cutoff_sum_int64 _ _ _ E). discriminate.
  - rewrite (cutoff_sum_float64 _ _ _ E). intros H. exists floats. split; [reflexivity|].
    now destruct (float64_sum (filter (SFleb (float64_of_Z cutoff)) floats)).
Qed.

End AggregationFacts.

(** C5, counterexample. An int64 column is summed in int64: for the file with
    the lines 9223372036854775807 and 1, and no cutoff element on the page, the
    solver answers -9223372036854775808, which is not the sum of the values
    that are at least 0. *)
Lemma C5_counterexample :
  solve_audio_csv_question overflow_library overflow_world audio_page_no_cutoff
    (JStr "https://quiz.example/audio0") [] =
    (inr (-9223372036854775808)%Z, [EvGet "https://quiz.example/files/data.csv"]) /\
  read_csv overflow_library (content (ok_response big_csv_body)) =
    inr [[CellInt 9223372036854775807; CellInt 1]] /\
  Zsum (filter (fun z => (0 <=? z)%Z) [9223372036854775807; 1]%Z) = 9223372036854775808%Z /\
  fst (solve_audio_csv_question overflow_library overflow_world audio_page_no_cutoff
         (JStr "https://quiz.example/audio0") []) <>
    inr (Zsum (filter (fun z => (0 <=? z)%Z) [9223372036854775807; 1]%Z)).
Proof. repeat split. discriminate. Qed.

(** C5, amended. When the page's CSV link resolves, the file is downloaded and
    read, and the page's cutoff (the integer text of the cutoff element, 0
    without one) lies within int64, the Audio/CSV solver returns [int] of the
    sum, in the arithmetic of the first column, of its values that are at least
    the cutoff.  On an int64 series the result is the sum of the entries from
    the cutoff up wrapped around modulo 2^64, so the exact sum whenever that
    lies within int64; a column of integers is such a series.  On a float64
    series the values are the coerced cells, a cell that is no number being
    NaN; the result is [int] of numpy's sum of the values from the cutoff up,
    among which there is no NaN.  The aggregation raises nothing but [int]'s
    exception on a float64 sum that is infinite or NaN.  For the series
    5, 10, 15, 20 and cutoff 10 the result is 45; for -1, 2 and cutoff 0 it is 2. *)
Theorem C5_audio_csv_answer (L : Library) (W : World) (html : string)
    (current_url : JSON) (log : list Event) (csv_tag : Node) (href csv_url : string)
    (resp : Response) (column : list Cell) (others : list (list Cell)) (cutoff : Z) :
  find_csv_anchor (BeautifulSoup L html) = Some csv_tag ->
  node_get "href" csv_tag = Some href ->
  urljoin L current_url href = inr csv_url ->
  client_get W log csv_url = inr resp ->
  status_error resp = None ->
  read_csv L (content resp) = inr (column :: others) ->
  page_cutoff L (BeautifulSoup L html) cutoff ->
  in_int64 cutoff = true ->
  let answer := cutoff_sum (str_to_number L) (float64_sum L) column cutoff in
  solve_audio_csv_question L W html current_url log = (answer, EvGet csv_url :: log) /\
  (forall zs,
      to_numeric_coerce (str_to_number L) column = Int64Series zs ->
      answer = inr (wrap_int64 (Zsum (filter (fun z => (cutoff <=? z)%Z) zs))) /\
      (in_int64 (Zsum (filter (fun z => (cutoff <=? z)%Z) zs)) = true ->
       answer = inr (Zsum (filter (fun z => (cutoff <=? z)%Z) zs)))) /\
  (forall zs,
      column = map CellInt zs ->
      to_numeric_coerce (str_to_number L) column = Int64Series zs) /\
  (forall floats,
      to_numeric_coerce (str_to_number L) column = Float64Series floats ->
      floats = map (fun c => number_to_float (coerce_cell (str_to_number L) c)) column /\
      answer =
        float64_to_int (float64_sum L (filter (SFleb (float64_of_Z cutoff)) floats)) /\
      Forall (fun v => is_nan v = false) (filter (SFleb (float64_of_Z cutoff)) floats)) /\
  (forall c, numeric (str_to_number L) c = false ->
             number_to_float (coerce_cell (str_to_number L) c) = nan) /\
  (forall e, answer = inl e ->
             exists floats,
               to_numeric_coerce (str_to_number L) column = Float64Series floats /\
               not_finite (float64_sum L (filter (SFleb (float64_of_Z cutoff)) floats))) /\
  cutoff_sum (str_to_number L) (float64_sum L)
    [CellInt 5; CellInt 10; CellInt 15; CellInt 20] 10 = inr 45%Z /\
  cutoff_sum (str_to_number L) (float64_sum L) [CellInt (-1); CellInt 2] 0 = inr 2%Z.
Proof.
  intros H1 H2 H3 H4 H5 H6 H7 H8 answer. subst answer.
  split; [| split; [| split; [| split; [| split; [| split; [| split]]]]]].
  - unfold solve_audio_csv_question. cbn zeta. rewrite H1, H2.
    unfold bind, lift, get, raise_for_status, read_cutoff, iloc_first_column.
    rewrite H3, H4, H5, H6. unfold page_cutoff in H7.
    destruct (select_one_cutoff (BeautifulSoup L html)) as [cutoff_el |].
    + now rewrite H7.
    + now subst cutoff.
  - intros zs E. split.
    + now apply cutoff_sum_int64.
    + intros R. rewrite (cutoff_sum_int64 _ _ _ _ _ E). now rewrite (wrap_int64_small _ R).
  - intros zs ->. apply to_numeric_coerce_integers.
  - intros floats E. split; [now apply to_numeric_coerce_floats | split].
    + now apply cutoff_sum_float64.
    + apply filter_ge_no_nan.
  - apply numeric_false_nan.
  - apply cutoff_sum_raises.
  - reflexivity.
  - reflexivity.
Qed.

Lemma C5_audio_csv_answer_witness :
  solve_audio_csv_question demo_library demo_world audio_page
    (JStr "https://quiz.example/audio") [] =
  (inr 30%Z, [EvGet "https://quiz.example/files/data.csv"]).
Proof.
  exact (proj1 (C5_audio_csv_answer demo_library demo_world audio_page
                  (JStr "https://quiz.example/audio") []
                  (Element "a" [("href", AttrStr "/files/data.csv")] [Text "Listen"])
                  "/files/data.csv" "https://quiz.example/files/data.csv"
                  (ok_response csv_body)
                  [CellText "-5"; CellText "10"; CellText "n/a"; CellText "20"] [] 10
                  eq_refl eq_refl eq_refl eq_refl eq_refl eq_refl eq_refl eq_refl)).
Defined.

(** A float64 column is summed in float64: 0.6 + 3.5 + 1.8 + 0.1 falls short
    of 6, and the answer is 5. *)
Example cutoff_sum_float64_rounds :
  cutoff_sum (fun _ => None) short_float64_sum
    [CellFloat (SFdiv 53 1024 (float64_of_Z 6) (float64_of_Z 10));
     CellFloat (SFdiv 53 1024 (float64_of_Z 35) (float64_of_Z 10));
     CellFloat (SFdiv 53 1024 (float64_of_Z 18) (float64_of_Z 10));
     CellFloat (SFdiv 53 1024 (float64_of_Z 1) (float64_of_Z 10))] 0 = inr 5%Z.
Proof. reflexivity. Qed.

(** Fractions are cut toward zero, text and missing cells are skipped. *)
Example cutoff_sum_mixed :
  cutoff_sum (fun _ => None) short_float64_sum
    [CellFloat (SFdiv 53 1024 (float64_of_Z 5) (float64_of_Z 2)); CellText "n/a";
     CellFloat (SFdiv 53 1024 (float64_of_Z 21) (float64_of_Z 2)); CellMissing; CellInt 3] 3
  = inr 13%Z.
Proof. reflexivity. Qed.

Example cutoff_sum_negative :
  cutoff_sum (fun _ => None) short_float64_sum
    [CellFloat (SFdiv 53 1024 (float64_of_Z (-5)) (float64_of_Z 2)); CellInt (-4)] (-3)
  = inr (-2)%Z.
Proof. reflexivity. Qed.

(** An infinite sum makes [int] raise. *)
Example cutoff_sum_infinite :
  cutoff_sum (fun _ => None) short_float64_sum [CellFloat (S754_infinity false)] 0 =
  inl (OverflowError "cannot convert float infinity to integer").
Proof. reflexivity. Qed.

(** A cell that is no number turns an integer column into float64, where a
    large integer is rounded. *)
Example cutoff_sum_dtype_changes :
  cutoff_sum (fun _ => None) short_float64_sum [CellInt 9007199254740993] 0 =
    inr 9007199254740993%Z /\
  cutoff_sum (fun _ => None) short_float64_sum [CellInt 9007199254740993; CellText "n/a"] 0 =
    inr 9007199254740992%Z.
Proof. split; reflexivity. Qed.

(** ** Target resolver *)

Lemma rstrip_with_cons_nonempty (p : ascii -> bool) (c : ascii) (s : string) :
  PyStr.truthy (PyStr.rstrip_with p s) = true ->
  PyStr.rstrip_with p (String c s) = String c (PyStr.rstrip_with p s).
Proof. simpl. destruct (PyStr.rstrip_with p s); [discriminate | reflexivity]. Qed.

Lemma all_chars_rstrip (p q : ascii -> bool) (s : string) :
  PyStr.all_chars q s = true -> PyStr.all_chars q (PyStr.rstrip_with p s) = true.
Proof.
  intros H. destruct (rstrip_with_prefix p s) as [tail [E _]].
  rewrite E, all_chars_app in H. now apply andb_true_iff in H as [H _].
Qed.

Lemma alpha_not_slash (c : ascii) : is_alpha c = true -> PyStr.is_slash c = false.
Proof. destruct c as [[] [] [] [] [] [] [] []]; vm_compute; congruence. Qed.

Lemma scheme_char_not_slash (c : ascii) : is_scheme_char c = true -> PyStr.is_slash c = false.
Proof. destruct c as [[] [] [] [] [] [] [] []]; vm_compute; congruence. Qed.

Lemma authority_start_not_slash (c : ascii) :
  is_authority_start c = true -> PyStr.is_slash c = false.
Proof. destruct c as [[] [] [] [] [] [] [] []]; vm_compute; congruence. Qed.

Lemma colon_not_slash (c : ascii) : Ascii.eqb c ":"%char = true -> PyStr.is_slash c = false.
Proof. intros H. apply Ascii.eqb_eq in H. now subst. Qed.

Lemma after_colon_submit (s : string) :
  after_colon s = true ->
  PyStr.truthy (PyStr.rstrip_slash s) = true /\
  after_colon (PyStr.rstrip_slash s ++ "/submit") = true.
Proof.
  intros H. destruct s as [|a [|b [|h rest]]]; try discriminate.
  cbn [after_colon] in H.
  apply andb_true_iff in H as [H Hr]. apply andb_true_iff in H as [H Hh].
  apply andb_true_iff in H as [Ha Hb].
  unfold PyStr.rstrip_slash.
  pose proof (rstrip_with_keep PyStr.is_slash h rest (authority_start_not_slash _ Hh)) as E1.
  assert (E2 : PyStr.rstrip_with PyStr.is_slash (String b (String h rest)) =
               String b (String h (PyStr.rstrip_with PyStr.is_slash rest))).
  { rewrite rstrip_with_cons_nonempty; rewrite E1; reflexivity. }
  assert (E3 : PyStr.rstrip_with PyStr.is_slash (String a (String b (String h rest))) =
               String a (String b (String h (PyStr.rstrip_with PyStr.is_slash rest)))).
  { rewrite rstrip_with_cons_nonempty; rewrite E2; reflexivity. }
  rewrite E3. split; [reflexivity|].
  cbn [append after_colon]. rewrite Ha, Hb, Hh, all_chars_app.
  rewrite (all_chars_rstrip _ _ _ Hr). reflexivity.
Qed.

Lemma after_scheme_start_submit (s : string) :
  after_scheme_start s = true ->
  PyStr.truthy (PyStr.rstrip_slash s) = true /\
  after_scheme_start (PyStr.rstrip_slash s ++ "/submit") = true.
Proof.
  induction s as [|c s IH]; [discriminate|]. cbn [after_scheme_start].
  destruct (Ascii.eqb c ":"%char) eqn:Hc.
  - intros H. destruct (after_colon_submit s H) as [T A].
    unfold PyStr.rstrip_slash in *.
    rewrite (rstrip_with_keep _ c s (colon_not_slash _ Hc)).
    split; [reflexivity|]. cbn [append after_scheme_start]. now rewrite Hc.
  - intros H. apply andb_true_iff in H as [H1 H2]. destruct (IH H2) as [T A].
    unfold PyStr.rstrip_slash in *.
    rewrite (rstrip_with_keep _ c s (scheme_char_not_slash _ H1)).
    split; [reflexivity|]. cbn [append after_scheme_start]. now rewrite Hc, H1.
Qed.

(** Built on an absolute URL, the submit URL is an absolute URL. *)
Lemma is_absolute_url_submit (origin : string) :
  is_absolute_url origin = true ->
  is_absolute_url (PyStr.rstrip_slash origin ++ "/submit") = true.
Proof.
  destruct origin as [|c s]; [discriminate|]. cbn [is_absolute_url].
  intros H. apply andb_true_iff in H as [H1 H2].
  destruct (after_scheme_start_submit s H2) as [_ A].
  unfold PyStr.rstrip_slash in *. rewrite (rstrip_with_keep _ c s (alpha_not_slash _ H1)).
  cbn [append is_absolute_url]. now rewrite H1.
Qed.

(** The submit URL ends in "/submit", and the character before that is not a slash. *)
Lemma submit_suffix (origin : string) :
  PyStr.endswith "/submit" (PyStr.rstrip_slash origin ++ "/submit") = true /\
  PyStr.endswith "//submit" (PyStr.rstrip_slash origin ++ "/submit") = false.
Proof.
  split.
  - apply endswith_spec. now exists (PyStr.rstrip_slash origin).
  - destruct (PyStr.endswith "//submit" (PyStr.rstrip_slash origin ++ "/submit")) eqn:E;
      [| reflexivity].
    apply endswith_spec in E as [pre E]. exfalso.
    change "//submit" with (String "/"%char "" ++ "/submit") in E.
    rewrite <- append_assoc in E.
    assert (H : PyStr.rstrip_slash origin = pre ++ String "/"%char "")
      by exact (append_cancel_r _ _ _ E).
    apply rstrip_with_last in H. discriminate.
Qed.

Lemma build_submit_url_discovered (L : Library) (html : string) (current_url : JSON)
    (origin : string) :
  discover_origin L html current_url = inr origin ->
  build_submit_url L html current_url = inr (PyStr.rstrip_slash origin ++ "/submit").
Proof. unfold build_submit_url. now intros ->. Qed.

(** No origin is found only when there is no override and [urlparse] raises. *)
Lemma discover_origin_raises (L : Library) (html : string) (current_url : JSON) (e : PyError) :
  discover_origin L html current_url = inl e ->
  origin_override (BeautifulSoup L html) = None /\ urlparse L current_url = inl e.
Proof.
  unfold discover_origin. cbn zeta.
  destruct (origin_override (BeautifulSoup L html)); [discriminate|].
  destruct (urlparse L current_url); [| discriminate].
  intros H. injection H as ->. now split.
Qed.

(** C8. Whatever the page and the current URL, a URL that [build_submit_url]
    returns ends in "/submit" and not in "//submit", and is the same however
    many slashes trail the discovered origin.  The function returns whenever an
    origin is discovered; it raises only what [urlparse] raises on the current
    URL, when the page gives no origin. *)
Theorem C8_submit_suffix (L : Library) (html : string) (current_url : JSON) :
  match build_submit_url L html current_url with
  | inr submit_url =>
      PyStr.endswith "/submit" submit_url = true /\
      PyStr.endswith "//submit" submit_url = false /\
      exists origin,
        discover_origin L html current_url = inr origin /\
        forall slashes,
          PyStr.all_chars PyStr.is_slash slashes = true ->
          PyStr.rstrip_slash (origin ++ slashes) ++ "/submit" = submit_url
  | inl e =>
      origin_override (BeautifulSoup L html) = None /\ urlparse L current_url = inl e
  end.
Proof.
  unfold build_submit_url.
  destruct (discover_origin L html current_url) as [e | origin] eqn:D.
  - now apply discover_origin_raises.
  - destruct (submit_suffix origin) as [S1 S2]. repeat split; try assumption.
    exists origin. split; [reflexivity|]. intros slashes Hs.
    unfold PyStr.rstrip_slash. now rewrite rstrip_with_app_stripped.
Qed.

Example build_submit_url_trailing_slashes :
  build_submit_url sample_library origin_page (JStr "https://other.example/q1") =
  inr "https://quiz.example/submit".
Proof. reflexivity. Qed.

Example build_submit_url_fallback :
  build_submit_url sample_library question_page (JStr "https://quiz.example/q1?x=1#top") =
  inr "https://quiz.example/submit".
Proof. reflexivity. Qed.

(** C7, counterexample. The text of the origin element is used as it is: for a
    page whose origin element reads "quiz server" the result is
    "quiz server/submit", which is no absolute URL. *)
Lemma C7_counterexample :
  BeautifulSoup sample_library bad_origin_page =
    [Element "span" [("class", AttrList ["origin"])] [Text "quiz server"]] /\
  build_submit_url sample_library bad_origin_page (JStr "https://quiz.example/q1") =
    inr "quiz server/submit" /\
  is_absolute_url "quiz server/submit" = false.
Proof. repeat split. Qed.

(** A relative current URL, with no origin on the page, gives "/submit". *)
Example build_submit_url_relative :
  build_submit_url sample_library question_page (JStr "quiz/q1") = inr "/submit" /\
  is_absolute_url "/submit" = false.
Proof. split; reflexivity. Qed.

(** C7, amended. [build_submit_url] builds on an origin that it does not
    validate.  When the page has an origin element whose trimmed text is not
    empty, it returns that text without trailing slashes, followed by
    "/submit".  Otherwise (no origin element, or one with blank text) it
    returns in the same way the URL that [urlunparse] rebuilds from scheme and
    netloc of [urlparse(current_url)], or raises what [urlparse] raises.  In
    either case the result is an absolute URL whenever that origin is one.
    Resolving makes no call: in an iteration nothing lies between the render of
    the page and what follows the resolving, be that its exception or, on a
    generic page, the POST. *)
Theorem C7_submit_url_built_on_origin (L : Library) (html : string) (url : JSON) :
  (forall origin_el,
      select_one_origin (BeautifulSoup L html) = Some origin_el ->
      PyStr.truthy (PyStr.strip (node_text origin_el)) = true ->
      build_submit_url L html url =
        inr (PyStr.rstrip_slash (PyStr.strip (node_text origin_el)) ++ "/submit") /\
      (is_absolute_url (PyStr.strip (node_text origin_el)) = true ->
       exists submit_url,
         build_submit_url L html url = inr submit_url /\
         is_absolute_url submit_url = true)) /\
  ((select_one_origin (BeautifulSoup L html) = None \/
    exists origin_el,
      select_one_origin (BeautifulSoup L html) = Some origin_el /\
      PyStr.truthy (PyStr.strip (node_text origin_el)) = false) ->
   build_submit_url L html url =
     match urlparse L url with
     | inl e => inl e
     | inr parsed =>
         inr (PyStr.rstrip_slash
                (urlunparse L (scheme parsed, netloc parsed, "", "", "", "")) ++ "/submit")
     end /\
   (forall parsed,
       urlparse L url = inr parsed ->
       is_absolute_url (urlunparse L (scheme parsed, netloc parsed, "", "", "", "")) = true ->
       exists submit_url,
         build_submit_url L html url = inr submit_url /\
         is_absolute_url submit_url = true)) /\
  (forall W st log,
      current_url st = url ->
      fetch_rendered_html_sync W log url = inr html ->
      (forall e,
          build_submit_url L html url = inl e ->
          fetch_solve_submit L W st log = (inl e, EvRender url :: log)) /\
      (forall submit_url,
          build_submit_url L html url = inr submit_url ->
          detect_quiz_type html = "generic" ->
          fetch_solve_submit L W st log =
          (client_post W (EvRender url :: log) submit_url
             (make_payload st (AnswerStr "hello-from-agent")),
           EvPost submit_url (make_payload st (AnswerStr "hello-from-agent"))
             :: EvRender url :: log))).
Proof.
  split; [| split].
  - intros origin_el S T.
    assert (E : build_submit_url L html url =
                inr (PyStr.rstrip_slash (PyStr.strip (node_text origin_el)) ++ "/submit")).
    { unfold build_submit_url, discover_origin, origin_override. cbn zeta.
      now rewrite S, T. }
    split; [exact E |]. intros V. eexists. split; [exact E |].
    now apply is_absolute_url_submit.
  - intros H.
    assert (O : origin_override (BeautifulSoup L html) = None).
    { unfold origin_override. destruct H as [-> | [origin_el [-> ->]]]; reflexivity. }
    assert (E : build_submit_url L html url =
                match urlparse L url with
                | inl e => inl e
                | inr parsed =>
                    inr (PyStr.rstrip_slash
                           (urlunparse L (scheme parsed, netloc parsed, "", "", "", ""))
                         ++ "/submit")
                end).
    { unfold build_submit_url, discover_origin. cbn zeta. rewrite O.
      now destruct (urlparse L url). }
    split; [exact E |]. intros parsed P V. rewrite E, P. eexists. split; [reflexivity |].
    now apply is_absolute_url_submit.
  - intros W st log Hu Hr. split.
    + intros e Hb. unfold fetch_solve_submit, bind, render, lift.
      now rewrite Hu, Hr, Hb.
    + intros submit_url Hb Hg. unfold fetch_solve_submit, bind, render, lift, post, solve, ret.
      now rewrite Hu, Hr, Hb, Hg.
Qed.

Lemma C7_submit_url_built_on_origin_witness :
  build_submit_url sample_library origin_page (JStr "https://other.example/q1") =
    inr (PyStr.rstrip_slash (PyStr.strip " https://quiz.example/ ") ++ "/submit") /\
  (exists submit_url,
      build_submit_url sample_library origin_page (JStr "https://other.example/q1") =
        inr submit_url /\
      is_absolute_url submit_url = true) /\
  build_submit_url sample_library question_page (JStr "https://other.example/q1") =
    inr "https://other.example/submit".
Proof.
  pose proof (C7_submit_url_built_on_origin sample_library origin_page
                (JStr "https://other.example/q1")) as [Hover _].
  pose proof (C7_submit_url_built_on_origin sample_library question_page
                (JStr "https://other.example/q1")) as [_ [Hback _]].
  destruct (Hover
              (Element "span" [("class", AttrList ["origin"])] [Text " https://quiz.example/ "])
              eq_refl eq_refl) as [E V].
  split; [exact E | split; [exact (V eq_refl) |]].
  exact (proj1 (Hback (or_introl eq_refl))).
Defined.

(** The three cases on sample pages. *)
Example build_submit_url_cases :
  build_submit_url sample_library origin_page (JStr "https://other.example/q1") =
    inr "https://quiz.example/submit" /\
  build_submit_url sample_library bad_origin_page (JStr "https://other.example/q1") =
    inr "quiz server/submit" /\
  build_submit_url sample_library question_page (JNum 7) =
    inl (AttributeError "object has no attribute 'decode'").
Proof. repeat split. Qed.

(** ** The solvers around their cores *)

(** With the data page found and rendered, the scrape solver's answer is the
    code extracted from the page's text. *)
Lemma solve_scrape_question_returns (L : Library) (W : World) (html : string)
    (current_url : JSON) (log : list Event) (link : Node) (href scrape_url data_html : string) :
  select_one_question_a (BeautifulSoup L html) = Some link ->
  node_get "href" link = Some href ->
  PyStr.truthy href = true ->
  urljoin L current_url href = inr scrape_url ->
  fetch_rendered_html_sync W log (JStr scrape_url) = inr data_html ->
  solve_scrape_question L W html current_url log =
  (extract_secret_code (get_text (BeautifulSoup L data_html)),
   EvRender (JStr scrape_url) :: log).
Proof.
  intros H1 H2 H3 H4 H5. unfold solve_scrape_question. cbn zeta.
  rewrite H1, H2, H3. cbn [negb]. unfold bind, lift, render. now rewrite H4, H5.
Qed.

(** With the CSV downloaded and read and the cutoff read, the Audio/CSV
    solver's answer is the cutoff sum of the first column. *)
Lemma solve_audio_csv_question_returns (L : Library) (W : World) (html : string)
    (current_url : JSON) (log : list Event) (csv_tag : Node) (href csv_url : string)
    (resp : Response) (df : DataFrame) (cutoff : Z) (column : list Cell) :
  find_csv_anchor (BeautifulSoup L html) = Some csv_tag ->
  node_get "href" csv_tag = Some href ->
  urljoin L current_url href = inr csv_url ->
  client_get W log csv_url = inr resp ->
  status_error resp = None ->
  read_csv L (content resp) = inr df ->
  read_cutoff L (BeautifulSoup L html) = inr cutoff ->
  iloc_first_column df = inr column ->
  solve_audio_csv_question L W html current_url log =
  (cutoff_sum (str_to_number L) (float64_sum L) column cutoff, EvGet csv_url :: log).
Proof.
  intros H1 H2 H3 H4 H5 H6 H7 H8. unfold solve_audio_csv_question. cbn zeta.
  rewrite H1, H2. unfold bind, lift, get, raise_for_status.
  now rewrite H3, H4, H5, H6, H7, H8.
Qed.

(** A page without an element of id [cutoff] gives the cutoff 0. *)
Lemma read_cutoff_default (L : Library) (soup : Soup) :
  select_one_cutoff soup = None -> read_cutoff L soup = inr 0%Z.
Proof. unfold read_cutoff. now intros ->. Qed.

Example select_one_question_a_sample :
  select_one_question_a
    [Element "a" [("href", AttrStr "/skip")] [Text "outside"];
     Element "div" [("id", AttrStr "question")]
       [Text "Open "; Element "p" [] [Element "a" [("href", AttrStr "/data?x=1")] [Text "this"]]]]
  = Some (Element "a" [("href", AttrStr "/data?x=1")] [Text "this"]).
Proof. reflexivity. Qed.

Example find_csv_anchor_sample :
  find_csv_anchor
    [Element "a" [("href", AttrStr "/audio.mp3")] [];
     Element "a" [] [Text "no href"];
     Element "p" [] [Element "a" [("href", AttrStr "/files/data.csv")] [Text "csv"]]]
  = Some (Element "a" [("href", AttrStr "/files/data.csv")] [Text "csv"]).
Proof. reflexivity. Qed.

Example origin_override_sample :
  origin_override
    [Element "div" [] [Element "span" [("class", AttrList ["hint"; "origin"])]
                         [Text "  https://"; Element "b" [] [Text "quiz.example"]; Text "/ "]]]
  = Some "https://quiz.example/".
Proof. reflexivity. Qed.

(** ** Chain engine *)

Section ChainFacts.

Variable L : Library.
Variable W : World.

(** Iterations that went on to a next URL are iterations of [chain_loop]. *)
Lemma chain_loop_iterates (n : nat) (st : ChainState) (log : list Event)
    (st' : ChainState) (log' : list Event) :
  Iterates L W n st log st' log' ->
  forall fuel, chain_loop L W (n + fuel) st log = chain_loop L W fuel st' log'.
Proof.
  induction 1 as [st log | n st log log1 next_url log2 st' log' Hc Hi _ IH]; intros fuel.
  - reflexivity.
  - cbn [Nat.add chain_loop]. unfold bind at 1. rewrite Hc.
    unfold bind at 1. rewrite Hi. apply IH.
Qed.

Lemma solve_quiz_chain_unfold (fuel : nat) (start_url email secret : string)
    (log : list Event) :
  solve_quiz_chain L W fuel start_url email secret log =
  chain_loop L W fuel (chain_start W start_url email secret log) (EvClock :: log).
Proof. reflexivity. Qed.

(** The loop condition with a truthy URL reads the clock once. *)
Lemma loop_condition_truthy (st : ChainState) (log : list Event) :
  json_truthy (current_url st) = true ->
  loop_condition W st log =
  (inr (negb (Qle_bool MAX_DURATION_SEC (time W log - start_time st))), EvClock :: log).
Proof. unfold loop_condition. now intros ->. Qed.

(** With a falsy URL the condition fails before the clock is read. *)
Lemma loop_condition_falsy (st : ChainState) (log : list Event) :
  json_truthy (current_url st) = false ->
  loop_condition W st log = (inr false, log).
Proof. unfold loop_condition. now intros ->. Qed.

(** The loop ends at once when the condition fails. *)
Lemma chain_loop_exit (fuel : nat) (st : ChainState) (log log1 : list Event) :
  loop_condition W st log = (inr false, log1) ->
  chain_loop L W (S fuel) st log = (inr (Some timeout_result), log1).
Proof. intros Hc. cbn [chain_loop]. unfold bind. now rewrite Hc. Qed.

(** One turn of the loop, once the condition has held. *)
Lemma chain_loop_step (fuel : nat) (st : ChainState) (log log1 : list Event) :
  loop_condition W st log = (inr true, log1) ->
  chain_loop L W (S fuel) st log =
  match iteration L W st log1 with
  | (inl e, log2) => (inl e, log2)
  | (inr (Return result), log2) => (inr (Some result), log2)
  | (inr (Continue next_url), log2) =>
      chain_loop L W fuel (set_current_url st next_url) log2
  end.
Proof.
  intros Hc. cbn [chain_loop]. unfold bind at 1. rewrite Hc. unfold bind at 1.
  destruct (iteration L W st log1) as [[e | [result | next_url]] log2]; reflexivity.
Qed.

Lemma iteration_unfold (st : ChainState) (log : list Event) :
  iteration L W st log =
  match fetch_solve_submit L W st log with
  | (inl e, log') => (inl e, log')
  | (inr response, log') => (handle_reply L response, log')
  end.
Proof. reflexivity. Qed.

End ChainFacts.

Section ChainClaims.

Variable L : Library.
Variable W : World.

(** A reply that went through the submission is the answer to a POST, the last
    call made. *)
Lemma fetch_solve_submit_post (st : ChainState) (log : list Event)
    (response : Response) (log2 : list Event) :
  fetch_solve_submit L W st log = (inr response, log2) ->
  exists submit_url answer log',
    log2 = EvPost submit_url (make_payload st answer) :: log' /\
    client_post W log' submit_url (make_payload st answer) = inr response.
Proof.
  unfold fetch_solve_submit, bind, render, lift, post.
  destruct (fetch_rendered_html_sync W log (current_url st)) as [e | html]; [discriminate|].
  destruct (build_submit_url L html (current_url st)) as [e | submit_url]; [discriminate|].
  destruct (solve L W (detect_quiz_type html) html (current_url st)
              (EvRender (current_url st) :: log)) as [[e | answer] log'];
    [discriminate|].
  intros H. injection H as H1 H2. now exists submit_url, answer, log'.
Qed.

(** A reply that is valid JSON but no object has no [get]: the chain stops with
    an [AttributeError]. *)
Lemma handle_reply_not_object (response : Response) (result : JSON) :
  json_loads L (text response) = Some result ->
  (forall fields, result <> JObj fields) ->
  handle_reply L response = inl (AttributeError "object has no attribute 'get'").
Proof.
  intros H N. unfold handle_reply, parse_reply. rewrite H.
  destruct result; try reflexivity. now contradiction (N fields).
Qed.

(** C1. In any chain execution, whatever the number of iterations before: when
    the reply to a submission parses to an object whose "url" is absent or
    falsy, the loop ends and [solve_quiz_chain] returns that very object; no
    call follows the submission. *)
Theorem C1_reply_without_url_is_returned (n fuel : nat) (start_url email secret : string)
    (log0 : list Event) (st : ChainState) (log log1 : list Event)
    (response : Response) (log2 : list Event) (fields : list (string * JSON)) :
  Iterates L W n (chain_start W start_url email secret log0) (EvClock :: log0) st log ->
  loop_condition W st log = (inr true, log1) ->
  fetch_solve_submit L W st log1 = (inr response, log2) ->
  json_loads L (text response) = Some (JObj fields) ->
  (forall v, lookup "url" fields = Some v -> json_truthy v = false) ->
  solve_quiz_chain L W (n + S fuel) start_url email secret log0 =
  (inr (Some (JObj fields)), log2).
Proof.
  intros Hit Hc Hf Hj Hu.
  rewrite solve_quiz_chain_unfold, (chain_loop_iterates L W _ _ _ _ _ Hit).
  rewrite (chain_loop_step L W fuel st log log1 Hc), iteration_unfold, Hf.
  unfold handle_reply, parse_reply. rewrite Hj. cbn [json_get].
  destruct (lookup "url" fields) as [v |] eqn:E.
  - now rewrite (Hu v eq_refl).
  - reflexivity.
Qed.

(** C9. In any chain execution, whatever the number of iterations before: when
    the body of the reply to a submission is not valid JSON, [solve_quiz_chain]
    raises [RuntimeError] (the specification's InvalidResponseError) with the
    raw body in its message; the submission is the last call made. *)
Theorem C9_invalid_json_aborts (n fuel : nat) (start_url email secret : string)
    (log0 : list Event) (st : ChainState) (log log1 : list Event)
    (response : Response) (log2 : list Event) :
  Iterates L W n (chain_start W start_url email secret log0) (EvClock :: log0) st log ->
  loop_condition W st log = (inr true, log1) ->
  fetch_solve_submit L W st log1 = (inr response, log2) ->
  json_loads L (text response) = None ->
  solve_quiz_chain L W (n + S fuel) start_url email secret log0 =
    (inl (RuntimeError ("Invalid JSON from submit: " ++ text response)), log2) /\
  Occurs (text response) ("Invalid JSON from submit: " ++ text response) /\
  exists submit_url answer log',
    log2 = EvPost submit_url (make_payload st answer) :: log' /\
    client_post W log' submit_url (make_payload st answer) = inr response.
Proof.
  intros Hit Hc Hf Hj. split; [| split].
  - rewrite solve_quiz_chain_unfold, (chain_loop_iterates L W _ _ _ _ _ Hit).
    rewrite (chain_loop_step L W fuel st log log1 Hc), iteration_unfold, Hf.
    unfold handle_reply, parse_reply. now rewrite Hj.
  - exists "Invalid JSON from submit: ", "". now rewrite append_empty_r.
  - now apply fetch_solve_submit_post with log1.
Qed.

(** C3. In any chain execution, whatever the number of iterations before: when
    at the top of the loop the time elapsed since the start is at least
    [MAX_DURATION_SEC] (180 seconds), [solve_quiz_chain] returns the timeout
    result although the current URL is truthy, and the only call made is that
    reading of the clock.  The clock is read nowhere else: an iteration gives
    the same result under any other clock, and once the check has passed the
    turn of the loop is the whole iteration. *)
Theorem C3_budget_checked_at_loop_top (n fuel : nat) (start_url email secret : string)
    (log0 : list Event) (st : ChainState) (log : list Event) :
  Iterates L W n (chain_start W start_url email secret log0) (EvClock :: log0) st log ->
  json_truthy (current_url st) = true ->
  MAX_DURATION_SEC <= time W log - start_time st ->
  solve_quiz_chain L W (n + S fuel) start_url email secret log0 =
    (inr (Some timeout_result), EvClock :: log) /\
  MAX_DURATION_SEC == 180 /\
  (forall clock st1 log1,
      iteration L (with_time W clock) st1 log1 = iteration L W st1 log1) /\
  (forall fuel1 st1 log1,
      json_truthy (current_url st1) = true ->
      time W log1 - start_time st1 < MAX_DURATION_SEC ->
      chain_loop L W (S fuel1) st1 log1 =
      match iteration L W st1 (EvClock :: log1) with
      | (inl e, log2) => (inl e, log2)
      | (inr (Return result), log2) => (inr (Some result), log2)
      | (inr (Continue next_url), log2) =>
          chain_loop L W fuel1 (set_current_url st1 next_url) log2
      end).
Proof.
  intros Hit Ht He. split; [| split; [reflexivity | split]].
  - rewrite solve_quiz_chain_unfold, (chain_loop_iterates L W _ _ _ _ _ Hit).
    cbn [chain_loop]. unfold bind at 1. rewrite (loop_condition_truthy W st log Ht).
    apply Qle_bool_iff in He. now rewrite He.
  - reflexivity.
  - intros fuel1 st1 log1 Ht1 Hlt. apply chain_loop_step.
    rewrite (loop_condition_truthy W st1 log1 Ht1). do 2 f_equal.
    destruct (Qle_bool MAX_DURATION_SEC (time W log1 - start_time st1)) eqn:E; [| reflexivity].
    apply Qle_bool_iff in E. exfalso. exact (Qlt_not_le _ _ Hlt E).
Qed.

(** C4. With an empty start URL [solve_quiz_chain] returns the timeout result
    [{"correct": False, "reason": "timeout or missing url"}].  The one call it
    makes is the reading of the clock for [start_time]: the loop condition
    fails on the URL, before the clock is read again, so there is no render, no
    GET and no POST, hence no solver at work; the outcome is the same under any
    library and any world. *)
Theorem C4_empty_start_url (fuel : nat) (email secret : string) (log : list Event) :
  solve_quiz_chain L W (S fuel) "" email secret log =
    (inr (Some (JObj [("correct", JBool false);
                      ("reason", JStr "timeout or missing url")])),
     ([EvClock] ++ log)%list) /\
  filter is_network [EvClock] = [] /\
  (forall L' W',
      solve_quiz_chain L' W' (S fuel) "" email secret log =
      solve_quiz_chain L W (S fuel) "" email secret log).
Proof.
  assert (H : forall L' W',
             solve_quiz_chain L' W' (S fuel) "" email secret log =
             (inr (Some timeout_result), EvClock :: log)).
  { intros L' W'. rewrite solve_quiz_chain_unfold.
    apply chain_loop_exit, loop_condition_falsy. reflexivity. }
  split; [apply H | split; [reflexivity |]].
  intros L' W'. now rewrite !H.
Qed.

End ChainClaims.

(** ** The calls of a chain *)

Section Calls.

Variable L : Library.
Variable W : World.

Lemma calls_ret {A} (P : Event -> Prop) (a : A) : calls_satisfy P (ret a).
Proof. intros log. now exists []. Qed.

Lemma calls_raise {A} (P : Event -> Prop) (e : PyError) : calls_satisfy P (@raise A e).
Proof. intros log. now exists []. Qed.

Lemma calls_lift {A} (P : Event -> Prop) (r : Exc A) : calls_satisfy P (lift r).
Proof. intros log. now exists []. Qed.

Lemma calls_bind {A B} (P : Event -> Prop) (m : M A) (k : A -> M B) :
  calls_satisfy P m -> (forall a, calls_satisfy P (k a)) -> calls_satisfy P (bind m k).
Proof.
  intros Hm Hk log. unfold bind. destruct (Hm log) as [new1 [E1 F1]].
  destruct (m log) as [[e | a] log1]; simpl in E1; subst log1.
  - now exists new1.
  - destruct (Hk a (new1 ++ log)%list) as [new2 [E2 F2]].
    exists (new2 ++ new1)%list. rewrite E2, app_assoc. split; [reflexivity|].
    apply Forall_app. now split.
Qed.

Lemma calls_render (P : Event -> Prop) (url : JSON) :
  P (EvRender url) -> calls_satisfy P (render W url).
Proof. intros H log. exists [EvRender url]. split; [reflexivity | now constructor]. Qed.

Lemma calls_get (P : Event -> Prop) (url : string) :
  P (EvGet url) -> calls_satisfy P (get W url).
Proof. intros H log. exists [EvGet url]. split; [reflexivity | now constructor]. Qed.

Lemma calls_post (P : Event -> Prop) (url : string) (payload : Payload) :
  P (EvPost url payload) -> calls_satisfy P (post W url payload).
Proof. intros H log. exists [EvPost url payload]. split; [reflexivity | now constructor]. Qed.

Create HintDb calls.
#[local] Hint Resolve calls_ret calls_raise calls_lift : calls.

Lemma solve_scrape_question_calls (st : ChainState) (html : string) (url : JSON) :
  calls_satisfy (iteration_event st) (solve_scrape_question L W html url).
Proof.
  unfold solve_scrape_question. cbn zeta.
  destruct (select_one_question_a (BeautifulSoup L html)) as [link |]; auto with calls.
  destruct (node_get "href" link) as [href |]; auto with calls.
  destruct (negb (PyStr.truthy href)); auto with calls.
  apply calls_bind; auto with calls. intros scrape_url.
  apply calls_bind; auto with calls. now apply calls_render.
Qed.

Lemma solve_audio_csv_question_calls (st : ChainState) (html : string) (url : JSON) :
  calls_satisfy (iteration_event st) (solve_audio_csv_question L W html url).
Proof.
  unfold solve_audio_csv_question. cbn zeta.
  destruct (find_csv_anchor (BeautifulSoup L html)) as [csv_tag |]; auto with calls.
  destruct (node_get "href" csv_tag) as [href |]; auto with calls.
  apply calls_bind; auto with calls. intros csv_url.
  apply calls_bind; [now apply calls_get |]. intros resp.
  repeat (apply calls_bind; auto with calls; intros ?).
Qed.

Lemma solve_calls (st : ChainState) (quiz_type html : string) (url : JSON) :
  calls_satisfy (iteration_event st) (solve L W quiz_type html url).
Proof.
  unfold solve. destruct (String.eqb quiz_type "scrape").
  - apply calls_bind; auto with calls. apply solve_scrape_question_calls.
  - destruct (String.eqb quiz_type "audio"); auto with calls.
    apply calls_bind; auto with calls. apply solve_audio_csv_question_calls.
Qed.

(** An iteration never reads the clock, and posts the payload of its state. *)
Lemma iteration_calls (st : ChainState) :
  calls_satisfy (iteration_event st) (iteration L W st).
Proof.
  unfold iteration, fetch_solve_submit.
  apply calls_bind; auto with calls.
  apply calls_bind; [now apply calls_render |]. intros html.
  apply calls_bind; auto with calls. intros submit_url.
  apply calls_bind; [apply solve_calls |]. intros answer.
  apply calls_post. now repeat split.
Qed.

(** Across iterations only [current_url] changes. *)
Lemma iterates_keeps (n : nat) (st : ChainState) (log : list Event)
    (st' : ChainState) (log' : list Event) :
  Iterates L W n st log st' log' ->
  email st' = email st /\ secret st' = secret st /\ start_time st' = start_time st.
Proof. induction 1; [now repeat split | exact IHIterates]. Qed.

Lemma iteration_event_loop_event (st : ChainState) (log : list Event) (e : Event) :
  iteration_event st e -> loop_event L W st log e.
Proof.
  destruct e; simpl; try easy.
  intros H. exists 0%nat, st, log. split; [constructor | exact H].
Qed.

Lemma loop_event_step (st : ChainState) (log log2 : list Event) (next_url : JSON) (e : Event) :
  loop_condition W st log = (inr true, EvClock :: log) ->
  iteration L W st (EvClock :: log) = (inr (Continue next_url), log2) ->
  loop_event L W (set_current_url st next_url) log2 e -> loop_event L W st log e.
Proof.
  intros Hc Hi. destruct e; simpl; try easy.
  intros [n [st' [log' [Hit H]]]]. exists (S n), st', log'. split; [| exact H].
  now apply Iterates_step with (EvClock :: log)%list next_url log2.
Qed.

Lemma chain_loop_calls (fuel : nat) :
  forall st log, exists new,
    snd (chain_loop L W fuel st log) = (new ++ log)%list /\ Forall (loop_event L W st log) new.
Proof.
  induction fuel as [|fuel IH]; intros st log.
  - now exists [].
  - cbn [chain_loop]. unfold bind at 1.
    destruct (json_truthy (current_url st)) eqn:T.
    + rewrite (loop_condition_truthy W st log T).
      destruct (negb (Qle_bool MAX_DURATION_SEC (time W log - start_time st))) eqn:G.
      * unfold bind at 1. destruct (iteration_calls st (EvClock :: log)) as [new1 [E1 F1]].
        assert (F1' : Forall (loop_event L W st log) (new1 ++ [EvClock])).
        { apply Forall_app. split; [| now repeat constructor].
          eapply Forall_impl; [| exact F1]. apply iteration_event_loop_event. }
        destruct (iteration L W st (EvClock :: log)) as [[e | [result | next_url]] log2] eqn:Hi;
          simpl in E1; subst log2.
        -- exists (new1 ++ [EvClock])%list. now rewrite <- app_assoc.
        -- exists (new1 ++ [EvClock])%list. now rewrite <- app_assoc.
        -- destruct (IH (set_current_url st next_url) (new1 ++ EvClock :: log)%list)
             as [new2 [E2 F2]].
           exists (new2 ++ new1 ++ [EvClock])%list. rewrite E2. split.
           ++ now rewrite <- !app_assoc.
           ++ apply Forall_app. split; [| exact F1'].
              eapply Forall_impl; [| exact F2]. intros e.
              apply loop_event_step.
              ** rewrite (loop_condition_truthy W st log T). now rewrite G.
              ** exact Hi.
      * exists [EvClock]. split; [reflexivity | now repeat constructor].
    + unfold loop_condition. rewrite T. now exists [].
Qed.

(** C10. An iteration posts a payload whose email, secret and url are those of
    its state, the url being the current URL of that iteration; from one
    iteration to the next only the current URL changes.  So every payload a
    chain execution posts carries the email and the secret [solve_quiz_chain]
    was called with, and the current URL of the iteration that posts it. *)
Theorem C10_payload_fields :
  (forall st, calls_satisfy (iteration_event st) (iteration L W st)) /\
  (forall n st log st' log',
      Iterates L W n st log st' log' ->
      email st' = email st /\ secret st' = secret st /\ start_time st' = start_time st) /\
  (forall fuel start_url email secret log0,
      exists new,
        snd (solve_quiz_chain L W fuel start_url email secret log0) = (new ++ log0)%list /\
        Forall (fun e =>
                  match e with
                  | EvPost _ payload =>
                      p_email payload = email /\
                      p_secret payload = secret /\
                      exists n st log,
                        Iterates L W n (chain_start W start_url email secret log0)
                                 (EvClock :: log0) st log /\
                        p_url payload = current_url st
                  | _ => True
                  end) new).
Proof.
  split; [exact iteration_calls | split; [exact iterates_keeps |]].
  intros fuel start_url email0 secret0 log0. rewrite solve_quiz_chain_unfold.
  destruct (chain_loop_calls fuel (chain_start W start_url email0 secret0 log0)
              (EvClock :: log0)) as [new [E F]].
  exists (new ++ [EvClock])%list. rewrite E, <- app_assoc. split; [reflexivity|].
  apply Forall_app. split; [| now repeat constructor].
  eapply Forall_impl; [| exact F]. intros [| | |u payload]; simpl; try easy.
  intros [n [st [log [Hit [H1 [H2 H3]]]]]].
  destruct (iterates_keeps _ _ _ _ _ Hit) as [K1 [K2 _]].
  rewrite H1, H2, K1, K2. repeat split. now exists n, st, log.
Qed.

End Calls.

(** ** The chain on a server with two questions *)

Lemma quiz_world_first_iteration (clock : list Event -> Q) (last_reply : string) :
  clock [EvClock] - clock [] < MAX_DURATION_SEC ->
  Iterates sample_library (quiz_world clock last_reply) 1
    (chain_start (quiz_world clock last_reply)
       "https://quiz.example/q1" "student@example.org" "s3cret" [])
    [EvClock] (second_state clock) log_after_first.
Proof.
  intros H. eapply Iterates_step with (log1 := [EvClock; EvClock]).
  - rewrite loop_condition_truthy by reflexivity. do 2 f_equal.
    assert (E : Qle_bool MAX_DURATION_SEC (clock [EvClock] - clock []) = false).
    { destruct (Qle_bool MAX_DURATION_SEC (clock [EvClock] - clock [])) eqn:E; [| reflexivity].
      apply Qle_bool_iff in E. exfalso. exact (Qlt_not_le _ _ H E). }
    change (negb (Qle_bool MAX_DURATION_SEC (clock [EvClock] - clock [])) = true).
    now rewrite E.
  - reflexivity.
  - apply Iterates_zero.
Qed.

Lemma C1_reply_without_url_is_returned_witness :
  solve_quiz_chain sample_library (quiz_world (stepping_clock 1) reply_done) (1 + 1)
    "https://quiz.example/q1" "student@example.org" "s3cret" [] =
  (inr (Some (JObj [("correct", JBool true); ("url", JNull)])), log_after_second).
Proof.
  apply (C1_reply_without_url_is_returned sample_library
           (quiz_world (stepping_clock 1) reply_done)
           1 0 "https://quiz.example/q1" "student@example.org" "s3cret" []
           (second_state (stepping_clock 1)) log_after_first (EvClock :: log_after_first)
           (ok_response reply_done) log_after_second).
  - apply quiz_world_first_iteration. reflexivity.
  - reflexivity.
  - reflexivity.
  - reflexivity.
  - intros v H. simpl in H. injection H as <-. reflexivity.
Defined.

Lemma C9_invalid_json_aborts_witness :
  solve_quiz_chain sample_library (quiz_world (stepping_clock 1) reply_broken) (1 + 1)
    "https://quiz.example/q1" "student@example.org" "s3cret" [] =
  (inl (RuntimeError "Invalid JSON from submit: <html>502 Bad Gateway</html>"),
   log_after_second).
Proof.
  refine (proj1 (C9_invalid_json_aborts sample_library
           (quiz_world (stepping_clock 1) reply_broken)
           1 0 "https://quiz.example/q1" "student@example.org" "s3cret" []
           (second_state (stepping_clock 1)) log_after_first (EvClock :: log_after_first)
           (ok_response reply_broken) log_after_second _ _ _ _)).
  - apply quiz_world_first_iteration. reflexivity.
  - reflexivity.
  - reflexivity.
  - reflexivity.
Defined.

(** The second question's URL is fine, but 400 seconds have passed. *)
Lemma C3_budget_checked_at_loop_top_witness :
  json_truthy (current_url (second_state (stepping_clock 100))) = true /\
  solve_quiz_chain sample_library (quiz_world (stepping_clock 100) reply_done) (1 + 1)
    "https://quiz.example/q1" "student@example.org" "s3cret" [] =
  (inr (Some timeout_result), EvClock :: log_after_first).
Proof.
  split; [reflexivity|].
  refine (proj1 (C3_budget_checked_at_loop_top sample_library
           (quiz_world (stepping_clock 100) reply_done)
           1 0 "https://quiz.example/q1" "student@example.org" "s3cret" []
           (second_state (stepping_clock 100)) log_after_first _ _ _)).
  - apply quiz_world_first_iteration. reflexivity.
  - reflexivity.
  - discriminate.
Defined.

(** With time left, the same server is walked to its end. *)
Example solve_quiz_chain_two_questions :
  solve_quiz_chain sample_library (quiz_world (stepping_clock 1) reply_done) 5
    "https://quiz.example/q1" "student@example.org" "s3cret" [] =
  (inr (Some (JObj [("correct", JBool true); ("url", JNull)])), log_after_second).
Proof. reflexivity. Qed.

Example solve_quiz_chain_empty_start :
  solve_quiz_chain sample_library (quiz_world (stepping_clock 1) reply_done) 5
    "" "student@example.org" "s3cret" [] =
  (inr (Some timeout_result), [EvClock]).
Proof. reflexivity. Qed.

(** * Further properties *)

(** ** Classifier *)

Lemma lower_app (a b : string) : PyStr.lower (a ++ b) = PyStr.lower a ++ PyStr.lower b.
Proof. induction a as [|c a IH]; simpl; [reflexivity | now rewrite IH]. Qed.

Lemma Occurs_trans (a b c : string) : Occurs a b -> Occurs b c -> Occurs a c.
Proof.
  intros [p1 [q1 ->]] [p2 [q2 ->]]. exists (p2 ++ p1), (q1 ++ q2).
  now rewrite !append_assoc.
Qed.

Lemma Occurs_embedded (needle pre s post : string) :
  Occurs needle s -> Occurs needle (pre ++ s ++ post).
Proof. intros H. apply Occurs_trans with s; [exact H | now exists pre, post]. Qed.

Lemma scrape_marker_iff (html_l : string) : scrape_marker html_l <-> Occurs "scrape" html_l.
Proof.
  unfold scrape_marker. split; [| now right].
  intros [H | H]; [| exact H].
  apply Occurs_trans with "demo-scrape-data"; [| exact H]. now exists "demo-", "-data".
Qed.

(** X1. The page is classified "scrape" exactly when its lowercased text
    contains "scrape": the test for "demo-scrape-data" never decides, since
    that token contains "scrape" itself. *)
Theorem detect_quiz_type_scrape_iff (html : string) :
  (detect_quiz_type html = "scrape" <-> Occurs "scrape" (PyStr.lower html)) /\
  (PyStr.contains "demo-scrape-data" (PyStr.lower html) = true ->
   PyStr.contains "scrape" (PyStr.lower html) = true).
Proof.
  split.
  - rewrite <- scrape_marker_iff.
    destruct (detect_quiz_type_cases html) as [[E M] | [[E [N M]] | [E [N M]]]];
      rewrite E; split; intros H; try discriminate; try reflexivity; try assumption;
      now contradiction N.
  - intros H. apply contains_spec. apply scrape_marker_iff. left. now apply contains_spec.
Qed.

(** X2. Markup around a page never lowers its type: a page that contains a
    "scrape" page is "scrape", and a page that contains an "audio" page is not
    "generic". *)
Theorem detect_quiz_type_embedding (pre html post : string) :
  (detect_quiz_type html = "scrape" ->
   detect_quiz_type (pre ++ html ++ post) = "scrape") /\
  (detect_quiz_type html = "audio" ->
   detect_quiz_type (pre ++ html ++ post) <> "generic").
Proof.
  assert (Em : forall needle, Occurs needle (PyStr.lower html) ->
                              Occurs needle (PyStr.lower (pre ++ html ++ post))).
  { intros needle H. rewrite !lower_app. now apply Occurs_embedded. }
  split; intros H.
  - destruct (detect_quiz_type_cases html) as [[_ M] | [[E _] | [E _]]];
      [| rewrite E in H; discriminate | rewrite E in H; discriminate].
    destruct (detect_quiz_type_cases (pre ++ html ++ post))
      as [[E' _] | [[_ [N' _]] | [_ [N' _]]]]; [exact E' | |];
      exfalso; apply N'; destruct M as [M | M]; [left | right | left | right];
      now apply Em.
  - destruct (detect_quiz_type_cases html) as [[E _] | [[_ [_ M]] | [E _]]];
      [rewrite E in H; discriminate | | rewrite E in H; discriminate].
    destruct (detect_quiz_type_cases (pre ++ html ++ post))
      as [[E' _] | [[E' _] | [_ [_ N']]]]; [rewrite E'; discriminate | rewrite E'; discriminate |].
    exfalso; apply N'; destruct M as [M | M]; [left | right]; now apply Em.
Qed.

Example detect_quiz_type_not_stable_generic :
  detect_quiz_type "<p>Question</p>" = "generic" /\
  detect_quiz_type ("<audio>" ++ "<p>Question</p>" ++ "</audio>") = "audio".
Proof. split; reflexivity. Qed.

(** ** Target resolver *)

Lemma lstrip_with_all (p : ascii -> bool) (s : string) :
  PyStr.all_chars p s = true -> PyStr.lstrip_with p s = "".
Proof.
  induction s as [|c s IH]; simpl; [reflexivity|].
  intros H. apply andb_true_iff in H as [Hc Hs]. now rewrite Hc, IH.
Qed.

Lemma strip_blank (s : string) :
  PyStr.all_chars PyStr.is_space s = true -> PyStr.strip s = "".
Proof. intros H. unfold PyStr.strip. now rewrite lstrip_with_all. Qed.

Lemma origin_override_blank (soup : Soup) (origin_el : Node) :
  select_one_origin soup = Some origin_el ->
  PyStr.all_chars PyStr.is_space (node_text origin_el) = true ->
  origin_override soup = None.
Proof. intros S B. unfold origin_override. now rewrite S, (strip_blank _ B). Qed.

(** X3. When the page has an origin element with text, [build_submit_url]
    returns the trimmed text, without its trailing slashes, followed by
    "/submit": it does not raise, and the current URL plays no part. *)
Theorem build_submit_url_override (L : Library) (html : string) (origin_el : Node)
    (url1 url2 : JSON) :
  select_one_origin (BeautifulSoup L html) = Some origin_el ->
  PyStr.truthy (PyStr.strip (node_text origin_el)) = true ->
  build_submit_url L html url1 =
    inr (PyStr.rstrip_slash (PyStr.strip (node_text origin_el)) ++ "/submit") /\
  build_submit_url L html url2 = build_submit_url L html url1.
Proof.
  intros S T.
  assert (H : forall url, build_submit_url L html url =
                          inr (PyStr.rstrip_slash (PyStr.strip (node_text origin_el)) ++ "/submit")).
  { intros url. unfold build_submit_url, discover_origin, origin_override. cbn zeta.
    now rewrite S, T. }
  split; [apply H | now rewrite !H].
Qed.

Lemma build_submit_url_override_witness :
  build_submit_url sample_library origin_page (JStr "https://other.example/q1") =
    inr (PyStr.rstrip_slash (PyStr.strip " https://quiz.example/ ") ++ "/submit") /\
  build_submit_url sample_library origin_page (JNum 7) =
    build_submit_url sample_library origin_page (JStr "https://other.example/q1").
Proof.
  exact (build_submit_url_override sample_library origin_page
           (Element "span" [("class", AttrList ["origin"])] [Text " https://quiz.example/ "])
           (JStr "https://other.example/q1") (JNum 7) eq_refl eq_refl).
Defined.

(** X4. An origin element whose text is only white space counts as absent:
    the submit URL is built on scheme and host of the current URL, and what
    [urlparse] raises on it is raised. *)
Theorem build_submit_url_blank_origin (L : Library) (html : string) (origin_el : Node)
    (current_url : JSON) :
  select_one_origin (BeautifulSoup L html) = Some origin_el ->
  PyStr.all_chars PyStr.is_space (node_text origin_el) = true ->
  build_submit_url L html current_url =
  match urlparse L current_url with
  | inl e => inl e
  | inr parsed =>
      inr (PyStr.rstrip_slash (urlunparse L (scheme parsed, netloc parsed, "", "", "", ""))
           ++ "/submit")
  end.
Proof.
  intros S B. unfold build_submit_url, discover_origin. cbn zeta.
  rewrite (origin_override_blank _ _ S B).
  now destruct (urlparse L current_url).
Qed.

Lemma build_submit_url_blank_origin_witness :
  build_submit_url demo_library blank_origin_page (JStr "https://quiz.example/q1?x=1") =
  inr "https://quiz.example/submit".
Proof.
  exact (build_submit_url_blank_origin demo_library blank_origin_page
           (Element "span" [("class", AttrList ["origin"])] [Text "   "])
           (JStr "https://quiz.example/q1?x=1") eq_refl eq_refl).
Defined.

(** ** Scrape solver *)

Lemma digit_free_app (a b : string) :
  digit_free (a ++ b) = digit_free a && digit_free b.
Proof. unfold digit_free. apply all_chars_app. Qed.

Lemma digit_free_search (s : string) : digit_free s = true -> PyStr.search_digits s = None.
Proof.
  unfold digit_free. induction s as [|c s IH]; simpl; [reflexivity|].
  intros H. apply andb_true_iff in H as [Hc Hs].
  apply negb_true_iff in Hc. rewrite Hc. now apply IH.
Qed.

(** Lines without a digit are passed over. *)
Lemma scan_lines_skip (before rest : list string) :
  Forall (fun l => digit_free l = true) before ->
  scan_lines (before ++ rest) = scan_lines rest.
Proof.
  induction 1 as [|line before Hl _ IH]; [reflexivity|].
  simpl. rewrite (digit_free_search _ Hl), IH.
  now destruct (negb (PyStr.truthy (PyStr.strip line))).
Qed.

(** Once a line has given the code, later lines are not looked at. *)
Lemma scan_lines_found (lines rest : list string) (secret_code : string) :
  scan_lines lines = inr secret_code -> scan_lines (lines ++ rest) = inr secret_code.
Proof.
  induction lines as [|line lines IH]; simpl; [discriminate|].
  destruct (negb (PyStr.truthy (PyStr.strip line))); [exact IH|].
  destruct (PyStr.search_digits line); [trivial | exact IH].
Qed.

(** The lines of a text that a line feed and more text follow: the lines of the
    text alone (with an empty line more when it ends in a line break or is
    empty), then the lines of the rest. *)
Lemma splitlines_from_before_lf (a : string) :
  forall line b, exists ls,
    PyStr.splitlines_from line (a ++ nl ++ b) = (ls ++ PyStr.splitlines b)%list /\
    (ls = PyStr.splitlines_from line a \/
     ls = (PyStr.splitlines_from line a ++ [""])%list) /\
    (digit_free line = true -> digit_free a = true ->
     Forall (fun l => digit_free l = true) ls).
Proof.
  induction a as [|c a IH]; intros line b.
  - exists [line]. cbn. split; [reflexivity | split].
    + destruct line; cbn; [now right | now left].
    + intros Hl _. now constructor.
  - cbn [append PyStr.splitlines_from].
    assert (Hd : digit_free line = true -> digit_free (String c a) = true ->
                 digit_free (line ++ String c "") = true /\ digit_free a = true).
    { intros Hl Ha. rewrite digit_free_app, Hl. unfold digit_free in *. cbn in *.
      apply andb_true_iff in Ha as [Hc Ha]. now rewrite Hc, Ha. }
    destruct (PyStr.is_cr c) eqn:Hcr.
    + (* a carriage return: a line break in any case *)
      assert (Hlb : PyStr.is_linebreak c = true).
      { unfold PyStr.is_cr in Hcr. apply Ascii.eqb_eq in Hcr. now subst c. }
      rewrite Hlb. cbn [andb].
      destruct a as [|d a'].
      * (* the line feed that follows is the text's own separator *)
        cbn. exists [line]. split; [reflexivity | split; [now left |]].
        intros Hl _. now constructor.
      * change (PyStr.starts_with_lf (String d a' ++ nl ++ b)) with (PyStr.is_lf d).
        change (PyStr.starts_with_lf (String d a')) with (PyStr.is_lf d).
        destruct (PyStr.is_lf d).
        -- destruct (IH line b) as [ls [E [S F]]]. exists ls. split; [exact E | split; [exact S|]].
           intros Hl Ha. apply F; [exact Hl | now apply Hd].
        -- destruct (IH "" b) as [ls [E [S F]]]. exists (line :: ls). rewrite E.
           split; [reflexivity | split].
           ++ destruct S as [-> | ->]; [now left | now right].
           ++ intros Hl Ha. constructor; [exact Hl | apply F; [reflexivity | now apply Hd]].
    + cbn [andb]. destruct (PyStr.is_linebreak c).
      * destruct (IH "" b) as [ls [E [S F]]]. exists (line :: ls). rewrite E.
        split; [reflexivity | split].
        -- destruct S as [-> | ->]; [now left | now right].
        -- intros Hl Ha. constructor; [exact Hl | apply F; [reflexivity | now apply Hd]].
      * destruct (IH (line ++ String c "") b) as [ls [E [S F]]]. exists ls.
        split; [exact E | split; [exact S|]].
        intros Hl Ha. destruct (Hd Hl Ha) as [H1 H2]. now apply F.
Qed.

(** X5. Text without digits ahead of a line feed does not change the scrape
    answer: the scan passes over it, blank lines or not. *)
Theorem extract_secret_code_skips_prefix (prefix data_text : string) :
  digit_free prefix = true ->
  extract_secret_code (prefix ++ nl ++ data_text) = extract_secret_code data_text.
Proof.
  intros H. unfold extract_secret_code, PyStr.splitlines.
  destruct (splitlines_from_before_lf prefix "" data_text) as [ls [E [_ F]]].
  rewrite E. apply scan_lines_skip. now apply F.
Qed.

Lemma extract_secret_code_skips_prefix_witness :
  extract_secret_code (("Welcome!" ++ nl ++ "   " ++ cr) ++ nl ++ "Your code: 615 (of 9)") =
  extract_secret_code "Your code: 615 (of 9)".
Proof.
  exact (extract_secret_code_skips_prefix ("Welcome!" ++ nl ++ "   " ++ cr)
           "Your code: 615 (of 9)" eq_refl).
Defined.

(** X6. The scrape answer is settled by the first line that holds a digit:
    whatever follows that text after a line feed, the answer is the same. *)
Theorem extract_secret_code_ignores_rest (data_text rest secret_code : string) :
  extract_secret_code data_text = inr secret_code ->
  extract_secret_code (data_text ++ nl ++ rest) = inr secret_code.
Proof.
  unfold extract_secret_code, PyStr.splitlines. intros H.
  destruct (splitlines_from_before_lf data_text "" rest) as [ls [E [S _]]].
  rewrite E. destruct S as [-> | ->].
  - now apply scan_lines_found.
  - rewrite <- app_assoc. now apply scan_lines_found.
Qed.

Lemma extract_secret_code_ignores_rest_witness :
  extract_secret_code ("Your code: 615" ++ nl ++ "777 is not it") = inr "615".
Proof.
  exact (extract_secret_code_ignores_rest "Your code: 615" "777 is not it" "615" eq_refl).
Defined.

(** What the extraction returns is a run of digits. *)
Lemma extract_secret_code_digits (data_text secret_code : string) :
  extract_secret_code data_text = inr secret_code ->
  PyStr.truthy secret_code = true /\ PyStr.all_chars PyStr.is_digit secret_code = true.
Proof.
  unfold extract_secret_code. intros H.
  pose proof (scan_lines_spec (PyStr.splitlines data_text)) as S. rewrite H in S.
  destruct S as [before [line [after [_ [_ S]]]]].
  destruct (search_digits_some _ _ S) as [pre [post [_ [_ [P2 [P3 _]]]]]]. now split.
Qed.

Lemma solve_scrape_question_shape (L : Library) (W : World) (html : string)
    (current_url : JSON) (log : list Event) :
  match solve_scrape_question L W html current_url log with
  | (inr answer, log') =>
      PyStr.truthy answer = true /\
      PyStr.all_chars PyStr.is_digit answer = true /\
      exists scrape_url, log' = EvRender (JStr scrape_url) :: log
  | (inl e, log') =>
      log' = log \/ exists scrape_url, log' = EvRender (JStr scrape_url) :: log
  end.
Proof.
  unfold solve_scrape_question. cbn zeta.
  destruct (select_one_question_a (BeautifulSoup L html)) as [link |]; [| now left].
  destruct (node_get "href" link) as [href |]; [| now left].
  destruct (negb (PyStr.truthy href)); [now left |].
  unfold bind, lift, render.
  destruct (urljoin L current_url href) as [e | scrape_url]; [now left |].
  destruct (fetch_rendered_html_sync W log (JStr scrape_url)) as [e | data_html];
    [right; now exists scrape_url |].
  destruct (extract_secret_code (get_text (BeautifulSoup L data_html))) as [e | answer] eqn:E.
  - right. now exists scrape_url.
  - destruct (extract_secret_code_digits _ _ E) as [T D].
    repeat split; try assumption. now exists scrape_url.
Qed.

(** X7. The scrape solver makes at most one call, the render of the data page,
    and never a GET or a POST.  An answer it returns comes after exactly that
    one render and is a non-empty string of decimal digits. *)
Theorem solve_scrape_question_trace (L : Library) (W : World) (html : string)
    (current_url : JSON) (log : list Event) :
  match solve_scrape_question L W html current_url log with
  | (inr answer, log') =>
      PyStr.truthy answer = true /\
      PyStr.all_chars PyStr.is_digit answer = true /\
      exists scrape_url, log' = EvRender (JStr scrape_url) :: log
  | (inl e, log') =>
      log' = log \/ exists scrape_url, log' = EvRender (JStr scrape_url) :: log
  end.
Proof. apply solve_scrape_question_shape. Qed.

Example solve_scrape_question_demo :
  solve_scrape_question demo_library demo_world scrape_page
    (JStr "https://quiz.example/scrape") [] =
  (inr "32000", [EvRender (JStr "https://quiz.example/demo-scrape-data?email=me")]).
Proof. reflexivity. Qed.

(** ** Audio/CSV solver *)

Lemma Zsum_filter_nonneg (zs : list Z) (c : Z) :
  (0 <= c)%Z -> (0 <= Zsum (filter (fun z => (c <=? z)%Z) zs))%Z.
Proof.
  intros Hc. induction zs as [|z zs IH]; cbn; [lia|].
  destruct (c <=? z)%Z eqn:E; [| exact IH].
  apply Z.leb_le in E. cbn. unfold Zsum in IH. lia.
Qed.

Lemma Zsum_filter_antitone (zs : list Z) (c1 c2 : Z) :
  (0 <= c1)%Z -> (c1 <= c2)%Z ->
  (Zsum (filter (fun z => (c2 <=? z)%Z) zs) <= Zsum (filter (fun z => (c1 <=? z)%Z) zs))%Z.
Proof.
  intros H0 H12. induction zs as [|z zs IH]; cbn; [lia|].
  destruct (c2 <=? z)%Z eqn:E2, (c1 <=? z)%Z eqn:E1; cbn; unfold Zsum in *.
  - lia.
  - apply Z.leb_le in E2. apply Z.leb_gt in E1. lia.
  - apply Z.leb_le in E1. lia.
  - exact IH.
Qed.

Lemma in_int64_between (z : Z) : (0 <= z)%Z -> (z <= int64_max)%Z -> in_int64 z = true.
Proof.
  intros H0 H1. unfold in_int64, int64_min, int64_max in *.
  apply andb_true_iff. split; apply Z.leb_le; lia.
Qed.

(** X8. On a column of integers, for cutoffs 0 <= c1 <= c2 within int64: when
    the sum of the entries from c1 up lies within int64, both answers are the
    exact sums, neither is negative, and the answer for c2 is not the larger. *)
Theorem cutoff_sum_antitone (f : string -> option Number)
    (s : list float64 -> float64) (zs : list Z) (c1 c2 : Z) :
  (0 <= c1)%Z -> (c1 <= c2)%Z -> (c2 <= int64_max)%Z ->
  (Zsum (filter (fun z => (c1 <=? z)%Z) zs) <= int64_max)%Z ->
  cutoff_sum f s (map CellInt zs) c1 = inr (Zsum (filter (fun z => (c1 <=? z)%Z) zs)) /\
  cutoff_sum f s (map CellInt zs) c2 = inr (Zsum (filter (fun z => (c2 <=? z)%Z) zs)) /\
  (0 <= Zsum (filter (fun z => (c2 <=? z)%Z) zs))%Z /\
  (Zsum (filter (fun z => (c2 <=? z)%Z) zs) <= Zsum (filter (fun z => (c1 <=? z)%Z) zs))%Z.
Proof.
  intros H0 H12 H2 Hb.
  pose proof (Zsum_filter_nonneg zs c1 H0) as N1.
  assert (N2 : (0 <= Zsum (filter (fun z => (c2 <=? z)%Z) zs))%Z)
    by (apply Zsum_filter_nonneg; lia).
  pose proof (Zsum_filter_antitone zs c1 c2 H0 H12) as A.
  rewrite !(cutoff_sum_int64 f s _ zs _ (to_numeric_coerce_integers f zs)).
  rewrite (wrap_int64_small _ (in_int64_between _ N1 Hb)).
  rewrite (wrap_int64_small (Zsum (filter (fun z => (c2 <=? z)%Z) zs)))
    by (apply in_int64_between; lia).
  now repeat split.
Qed.

Lemma cutoff_sum_antitone_witness :
  cutoff_sum demo_str_to_number short_float64_sum (map CellInt [-5; 10; 20]%Z) 0 =
    inr (Zsum (filter (fun z => (0 <=? z)%Z) [-5; 10; 20]%Z)) /\
  cutoff_sum demo_str_to_number short_float64_sum (map CellInt [-5; 10; 20]%Z) 15 =
    inr (Zsum (filter (fun z => (15 <=? z)%Z) [-5; 10; 20]%Z)) /\
  (0 <= Zsum (filter (fun z => (15 <=? z)%Z) [-5; 10; 20]%Z))%Z /\
  (Zsum (filter (fun z => (15 <=? z)%Z) [-5; 10; 20]%Z) <=
   Zsum (filter (fun z => (0 <=? z)%Z) [-5; 10; 20]%Z))%Z.
Proof.
  apply (cutoff_sum_antitone demo_str_to_number short_float64_sum [-5; 10; 20]%Z 0 15);
    unfold int64_max; cbn; lia.
Defined.

(** Beyond int64 the sum wraps: the answer is negative, and a higher cutoff
    gives more. *)
Example cutoff_sum_wraps :
  cutoff_sum (fun _ => None) short_float64_sum
    [CellInt 9223372036854775807; CellInt 1] 0 = inr (-9223372036854775808)%Z /\
  cutoff_sum (fun _ => None) short_float64_sum
    [CellInt 9223372036854775807; CellInt 1] 2 = inr 9223372036854775807%Z.
Proof. split; reflexivity. Qed.

(** A negative cutoff lets negative values in. *)
Example cutoff_sum_negative_cutoff :
  cutoff_sum (fun _ => None) short_float64_sum [CellInt (-4); CellInt 1] (-5) = inr (-3)%Z /\
  cutoff_sum (fun _ => None) short_float64_sum [CellInt (-4); CellInt 1] (-3) = inr 1%Z.
Proof. split; reflexivity. Qed.

(** ** What the page queries find *)

Lemma find_node_accepted (anc : string -> list (string * AttrValue) -> bool)
    (hit : bool -> string -> list (string * AttrValue) -> bool) :
  forall n inside e, find_node anc hit inside n = Some e -> accepted hit e.
Proof.
  fix IH 1. intros [s | name attrs children] inside e; simpl.
  - discriminate.
  - destruct (hit inside name attrs) eqn:H.
    + intros E. injection E as <-. now exists inside, name, attrs, children.
    + induction children as [|x rest IHc]; [discriminate|].
      destruct (find_node anc hit (inside || anc name attrs) x) as [e' |] eqn:Ex.
      * intros E. injection E as <-. exact (IH x _ _ Ex).
      * exact IHc.
Qed.

Lemma find_first_accepted (anc : string -> list (string * AttrValue) -> bool)
    (hit : bool -> string -> list (string * AttrValue) -> bool) (soup : Soup) (e : Node) :
  find_first anc hit soup = Some e -> accepted hit e.
Proof.
  induction soup as [|n rest IH]; simpl; [discriminate|].
  destruct (find_node anc hit false n) as [e' |] eqn:E.
  - intros H. injection H as <-. exact (find_node_accepted anc hit n false e' E).
  - exact IH.
Qed.

(** The anchor found for the CSV has an [href] that ends in ".csv". *)
Lemma find_csv_anchor_href (soup : Soup) (csv_tag : Node) :
  find_csv_anchor soup = Some csv_tag ->
  exists href, node_get "href" csv_tag = Some href /\ PyStr.endswith ".csv" href = true.
Proof.
  intros H. apply find_first_accepted in H as [inside [name [attrs [children [-> H]]]]].
  apply andb_true_iff in H as [_ H]. simpl.
  destruct (attr_str "href" attrs) as [h |]; [| discriminate].
  apply andb_true_iff in H as [_ H]. now exists h.
Qed.

(** ** Audio/CSV solver: the download *)

(** X9. Once the page has an anchor to a CSV file (its [href] is there and
    ends in ".csv", so no [KeyError] arises) and the link resolves, the solver
    makes exactly one call, the GET of the file, whatever comes after; a GET
    that fails, or an error status of the reply, is raised as it is. *)
Theorem solve_audio_csv_question_download (L : Library) (W : World) (html : string)
    (current_url : JSON) (log : list Event) (csv_tag : Node) :
  find_csv_anchor (BeautifulSoup L html) = Some csv_tag ->
  exists href,
    node_get "href" csv_tag = Some href /\
    PyStr.endswith ".csv" href = true /\
    forall csv_url,
      urljoin L current_url href = inr csv_url ->
      snd (solve_audio_csv_question L W html current_url log) = EvGet csv_url :: log /\
      (forall e, client_get W log csv_url = inl e ->
                 fst (solve_audio_csv_question L W html current_url log) = inl e) /\
      (forall resp e, client_get W log csv_url = inr resp -> status_error resp = Some e ->
                      fst (solve_audio_csv_question L W html current_url log) = inl e).
Proof.
  intros F. destruct (find_csv_anchor_href _ _ F) as [href [G S]].
  exists href. split; [exact G | split; [exact S |]].
  intros csv_url J. unfold solve_audio_csv_question. cbn zeta.
  rewrite F, G. unfold bind, lift, get, raise_for_status, ret. rewrite J.
  destruct (client_get W log csv_url) as [e | resp].
  - split; [reflexivity | split; [intros e' H; now injection H as <- | discriminate]].
  - destruct (status_error resp) as [e |] eqn:St.
    + split; [reflexivity | split; [discriminate |]].
      intros resp' e' H1 H2. injection H1 as <-. simpl. congruence.
    + split; [| split; [discriminate | intros resp' e' H1 H2; injection H1 as <-; congruence]].
      destruct (read_csv L (content resp)); [reflexivity|].
      destruct (read_cutoff L (BeautifulSoup L html)); [reflexivity|].
      now destruct (iloc_first_column d).
Qed.

Lemma solve_audio_csv_question_download_witness :
  exists href,
    node_get "href" (Element "a" [("href", AttrStr "/files/data.csv")] [Text "Listen"])
      = Some href /\
    PyStr.endswith ".csv" href = true /\
    forall csv_url,
      urljoin demo_library (JStr "https://quiz.example/audio") href = inr csv_url ->
      snd (solve_audio_csv_question demo_library offline_world audio_page
             (JStr "https://quiz.example/audio") []) = EvGet csv_url :: [] /\
      (forall e, client_get offline_world [] csv_url = inl e ->
                 fst (solve_audio_csv_question demo_library offline_world audio_page
                        (JStr "https://quiz.example/audio") []) = inl e) /\
      (forall resp e, client_get offline_world [] csv_url = inr resp ->
                      status_error resp = Some e ->
                      fst (solve_audio_csv_question demo_library offline_world audio_page
                             (JStr "https://quiz.example/audio") []) = inl e).
Proof.
  exact (solve_audio_csv_question_download demo_library offline_world audio_page
           (JStr "https://quiz.example/audio") []
           (Element "a" [("href", AttrStr "/files/data.csv")] [Text "Listen"]) eq_refl).
Defined.

(** X10. A page without a cutoff element means cutoff 0: with the file
    downloaded and read, the answer is the cutoff sum of the first column at 0.
    On a column of integers that is the sum of the entries from 0 up, wrapped
    around modulo 2^64: the exact sum, and not negative, whenever that sum lies
    within int64. *)
Theorem solve_audio_csv_question_default_cutoff (L : Library) (W : World) (html : string)
    (current_url : JSON) (log : list Event) (csv_tag : Node) (href csv_url : string)
    (resp : Response) (column : list Cell) (others : list (list Cell)) :
  find_csv_anchor (BeautifulSoup L html) = Some csv_tag ->
  node_get "href" csv_tag = Some href ->
  urljoin L current_url href = inr csv_url ->
  client_get W log csv_url = inr resp ->
  status_error resp = None ->
  read_csv L (content resp) = inr (column :: others) ->
  select_one_cutoff (BeautifulSoup L html) = None ->
  solve_audio_csv_question L W html current_url log =
    (cutoff_sum (str_to_number L) (float64_sum L) column 0, EvGet csv_url :: log) /\
  (forall zs,
      column = map CellInt zs ->
      cutoff_sum (str_to_number L) (float64_sum L) column 0 =
        inr (wrap_int64 (Zsum (filter (fun z => (0 <=? z)%Z) zs))) /\
      ((Zsum (filter (fun z => (0 <=? z)%Z) zs) <= int64_max)%Z ->
       cutoff_sum (str_to_number L) (float64_sum L) column 0 =
         inr (Zsum (filter (fun z => (0 <=? z)%Z) zs)) /\
       (0 <= Zsum (filter (fun z => (0 <=? z)%Z) zs))%Z)).
Proof.
  intros H1 H2 H3 H4 H5 H6 H7. split.
  - apply solve_audio_csv_question_returns with csv_tag href resp (column :: others);
      try assumption; [now apply read_cutoff_default | reflexivity].
  - intros zs ->.
    pose proof (cutoff_sum_int64 (str_to_number L) (float64_sum L) _ zs 0
                  (to_numeric_coerce_integers (str_to_number L) zs)) as E.
    split; [exact E |]. intros Hb.
    pose proof (Zsum_filter_nonneg zs 0 (Z.le_refl 0)) as N.
    split; [| exact N].
    rewrite E. now rewrite (wrap_int64_small _ (in_int64_between _ N Hb)).
Qed.

Lemma solve_audio_csv_question_default_cutoff_witness :
  solve_audio_csv_question demo_library demo_world audio_page_no_cutoff
    (JStr "https://quiz.example/audio0") [] =
  (inr 30%Z, [EvGet "https://quiz.example/files/data.csv"]).
Proof.
  exact (proj1 (solve_audio_csv_question_default_cutoff demo_library demo_world
                  audio_page_no_cutoff (JStr "https://quiz.example/audio0") []
                  (Element "a" [("href", AttrStr "/files/data.csv")] [Text "Listen"])
                  "/files/data.csv" "https://quiz.example/files/data.csv"
                  (ok_response csv_body)
                  [CellText "-5"; CellText "10"; CellText "n/a"; CellText "20"] []
                  eq_refl eq_refl eq_refl eq_refl eq_refl eq_refl eq_refl)).
Defined.

Example solve_audio_csv_question_demo :
  solve_audio_csv_question demo_library demo_world audio_page
    (JStr "https://quiz.example/audio") [] =
  (inr 30%Z, [EvGet "https://quiz.example/files/data.csv"]).
Proof. reflexivity. Qed.

(** ** The calls of one iteration *)

Section IterationTrace.

Variable L : Library.
Variable W : World.

Lemma solve_scrape_question_log (html : string) (url : JSON) (log : list Event) :
  exists t, snd (solve_scrape_question L W html url log) = (t ++ log)%list /\ solver_trace t.
Proof.
  unfold solve_scrape_question, solver_trace. cbn zeta.
  destruct (select_one_question_a (BeautifulSoup L html)) as [link |];
    [| exists []; now split; [| left]].
  destruct (node_get "href" link) as [href |]; [| exists []; now split; [| left]].
  destruct (negb (PyStr.truthy href)); [exists []; now split; [| left] |].
  unfold bind, lift, render.
  destruct (urljoin L url href) as [e | scrape_url]; [exists []; now split; [| left] |].
  exists [EvRender (JStr scrape_url)]. split; [| right; left; now exists scrape_url].
  now destruct (fetch_rendered_html_sync W log (JStr scrape_url)).
Qed.

Lemma solve_audio_csv_question_log (html : string) (url : JSON) (log : list Event) :
  exists t, snd (solve_audio_csv_question L W html url log) = (t ++ log)%list /\ solver_trace t.
Proof.
  unfold solve_audio_csv_question, solver_trace. cbn zeta.
  destruct (find_csv_anchor (BeautifulSoup L html)) as [csv_tag |];
    [| exists []; now split; [| left]].
  destruct (node_get "href" csv_tag) as [href |]; [| exists []; now split; [| left]].
  unfold bind, lift, get, ret.
  destruct (urljoin L url href) as [e | csv_url]; [exists []; now split; [| left] |].
  exists [EvGet csv_url]. split; [| right; right; now exists csv_url].
  destruct (client_get W log csv_url) as [e | resp]; [reflexivity|].
  destruct (raise_for_status resp); [reflexivity|].
  destruct (read_csv L (content resp)); [reflexivity|].
  destruct (read_cutoff L (BeautifulSoup L html)); [reflexivity|].
  now destruct (iloc_first_column d).
Qed.

Lemma solve_log (quiz_type html : string) (url : JSON) (log : list Event) :
  exists t, snd (solve L W quiz_type html url log) = (t ++ log)%list /\ solver_trace t.
Proof.
  unfold solve. destruct (String.eqb quiz_type "scrape").
  - destruct (solve_scrape_question_log html url log) as [t [E S]]. exists t.
    split; [| exact S]. unfold bind, ret.
    now destruct (solve_scrape_question L W html url log) as [[e | a] l].
  - destruct (String.eqb quiz_type "audio").
    + destruct (solve_audio_csv_question_log html url log) as [t [E S]]. exists t.
      split; [| exact S]. unfold bind, ret.
      now destruct (solve_audio_csv_question L W html url log) as [[e | a] l].
    + exists []. split; [reflexivity | now left].
Qed.

Lemma iteration_trace_shape (st : ChainState) (log : list Event) :
  exists posts t,
    snd (iteration L W st log) = (posts ++ t ++ EvRender (current_url st) :: log)%list /\
    post_trace st posts /\
    solver_trace t /\
    (forall d, fst (iteration L W st log) = inr d -> posts <> []).
Proof.
  unfold iteration, fetch_solve_submit, bind, render, lift, post.
  destruct (fetch_rendered_html_sync W log (current_url st)) as [e | html].
  { exists [], []. repeat split; [now left | now left | discriminate]. }
  destruct (build_submit_url L html (current_url st)) as [e | submit_url].
  { exists [], []. repeat split; [now left | now left | discriminate]. }
  destruct (solve_log (detect_quiz_type html) html (current_url st)
              (EvRender (current_url st) :: log)) as [t [E S]].
  destruct (solve L W (detect_quiz_type html) html (current_url st)
              (EvRender (current_url st) :: log)) as [[e | answer] l];
    simpl in E; subst l.
  { exists [], t. repeat split; [now left | exact S | discriminate]. }
  exists [EvPost submit_url (make_payload st answer)], t.
  split; [| split; [right; now exists submit_url, answer | split; [exact S | discriminate]]].
  now destruct (client_post W (t ++ EvRender (current_url st) :: log)%list submit_url
                  (make_payload st answer)).
Qed.

(** X11. An iteration first renders the current URL; then the solver makes at
    most one call (a render of a data page or a GET of a CSV file); then comes
    at most one POST, with the payload of the state, and nothing after it.  An
    iteration that does not raise has made that POST. *)
Theorem iteration_trace (st : ChainState) (log : list Event) :
  exists posts t,
    snd (iteration L W st log) = (posts ++ t ++ EvRender (current_url st) :: log)%list /\
    post_trace st posts /\
    solver_trace t /\
    (forall d, fst (iteration L W st log) = inr d -> posts <> []).
Proof. apply iteration_trace_shape. Qed.

End IterationTrace.

(** ** How a chain goes on and ends *)

Section ChainRuns.

Variable L : Library.
Variable W : World.

(** One more iteration at the end of a run of iterations. *)
Lemma Iterates_snoc (n : nat) (st0 : ChainState) (log0 : list Event) (st : ChainState)
    (log log1 : list Event) (next_url : JSON) (log2 : list Event) :
  Iterates L W n st0 log0 st log ->
  loop_condition W st log = (inr true, log1) ->
  iteration L W st log1 = (inr (Continue next_url), log2) ->
  Iterates L W (S n) st0 log0 (set_current_url st next_url) log2.
Proof.
  induction 1 as [st log | n st0 log0 l1 u l2 st log Hc' Hi' _ IH]; intros Hc Hi.
  - apply Iterates_step with log1 next_url log2; [exact Hc | exact Hi | constructor].
  - apply Iterates_step with l1 u l2; [exact Hc' | exact Hi' | now apply IH].
Qed.

(** X12. Nothing is caught inside the loop: whatever an iteration raises (in
    the renderer, a library, a solver or the HTTP client) is what
    [solve_quiz_chain] raises, and the failed iteration's calls are the last. *)
Theorem chain_error_propagates (n fuel : nat) (start_url email secret : string)
    (log0 : list Event) (st : ChainState) (log log1 : list Event)
    (e : PyError) (log2 : list Event) :
  Iterates L W n (chain_start W start_url email secret log0) (EvClock :: log0) st log ->
  loop_condition W st log = (inr true, log1) ->
  iteration L W st log1 = (inl e, log2) ->
  solve_quiz_chain L W (n + S fuel) start_url email secret log0 = (inl e, log2).
Proof.
  intros Hit Hc Hi.
  rewrite solve_quiz_chain_unfold, (chain_loop_iterates L W _ _ _ _ _ Hit).
  now rewrite (chain_loop_step L W fuel st log log1 Hc), Hi.
Qed.

(** X13. A reply that is valid JSON but not an object (a list, a string, a
    number, null) is not returned: reading its "url" raises [AttributeError],
    which ends the chain. *)
Theorem chain_non_object_reply (n fuel : nat) (start_url email secret : string)
    (log0 : list Event) (st : ChainState) (log log1 : list Event)
    (response : Response) (log2 : list Event) (result : JSON) :
  Iterates L W n (chain_start W start_url email secret log0) (EvClock :: log0) st log ->
  loop_condition W st log = (inr true, log1) ->
  fetch_solve_submit L W st log1 = (inr response, log2) ->
  json_loads L (text response) = Some result ->
  (forall fields, result <> JObj fields) ->
  solve_quiz_chain L W (n + S fuel) start_url email secret log0 =
  (inl (AttributeError "object has no attribute 'get'"), log2).
Proof.
  intros Hit Hc Hf Hj Hn.
  rewrite solve_quiz_chain_unfold, (chain_loop_iterates L W _ _ _ _ _ Hit).
  rewrite (chain_loop_step L W fuel st log log1 Hc), iteration_unfold, Hf.
  now rewrite (handle_reply_not_object L response result Hj Hn).
Qed.

(** X14. A reply whose "url" is truthy sends the loop on with that value as
    the current URL, whatever kind of value it is; email, secret and start
    time stay, and the budget is checked before the next page is rendered. *)
Theorem chain_follows_url (n fuel : nat) (start_url email secret : string)
    (log0 : list Event) (st : ChainState) (log log1 : list Event)
    (response : Response) (log2 : list Event) (fields : list (string * JSON))
    (next_url : JSON) :
  Iterates L W n (chain_start W start_url email secret log0) (EvClock :: log0) st log ->
  loop_condition W st log = (inr true, log1) ->
  fetch_solve_submit L W st log1 = (inr response, log2) ->
  json_loads L (text response) = Some (JObj fields) ->
  lookup "url" fields = Some next_url ->
  json_truthy next_url = true ->
  Iterates L W (S n) (chain_start W start_url email secret log0) (EvClock :: log0)
    (set_current_url st next_url) log2 /\
  solve_quiz_chain L W (n + S fuel) start_url email secret log0 =
    chain_loop L W fuel (set_current_url st next_url) log2 /\
  loop_condition W (set_current_url st next_url) log2 =
    (inr (negb (Qle_bool MAX_DURATION_SEC (time W log2 - start_time st))), EvClock :: log2).
Proof.
  intros Hit Hc Hf Hj Hu Ht.
  assert (Hi : iteration L W st log1 = (inr (Continue next_url), log2)).
  { rewrite iteration_unfold, Hf. unfold handle_reply, parse_reply.
    rewrite Hj. cbn [json_get]. now rewrite Hu, Ht. }
  split; [| split].
  - now apply Iterates_snoc with log log1.
  - rewrite solve_quiz_chain_unfold, (chain_loop_iterates L W _ _ _ _ _ Hit).
    now rewrite (chain_loop_step L W fuel st log log1 Hc), Hi.
  - exact (loop_condition_truthy W (set_current_url st next_url) log2 Ht).
Qed.

Lemma handle_reply_return (response : Response) (result : JSON) :
  handle_reply L response = inr (Return result) ->
  exists fields,
    result = JObj fields /\
    json_loads L (text response) = Some result /\
    (forall v, lookup "url" fields = Some v -> json_truthy v = false).
Proof.
  unfold handle_reply, parse_reply.
  destruct (json_loads L (text response)) as [r |]; [| discriminate].
  destruct r as [| b | q | s | items | fields]; try discriminate.
  cbn [json_get]. destruct (lookup "url" fields) as [v |] eqn:E.
  - destruct (json_truthy v) eqn:T; cbn [negb]; [discriminate|].
    intros H. injection H as <-. exists fields.
    split; [reflexivity | split; [reflexivity |]].
    intros v' H. rewrite E in H. injection H as <-. exact T.
  - cbn. intros H. injection H as <-. exists fields.
    split; [reflexivity | split; [reflexivity |]].
    intros v' H. rewrite E in H. discriminate.
Qed.

Lemma chain_loop_result (fuel : nat) :
  forall st log result log',
    chain_loop L W fuel st log = (inr (Some result), log') ->
    result = timeout_result \/
    exists fields submit_url payload rest response,
      result = JObj fields /\
      log' = EvPost submit_url payload :: rest /\
      client_post W rest submit_url payload = inr response /\
      json_loads L (text response) = Some result /\
      (forall v, lookup "url" fields = Some v -> json_truthy v = false).
Proof.
  induction fuel as [|fuel IH]; intros st log result log'; [discriminate|].
  cbn [chain_loop]. unfold bind at 1.
  destruct (loop_condition W st log) as [[e | go_on] log1]; [discriminate|].
  destruct go_on; [| intros H; injection H as <- _; now left].
  unfold bind at 1. rewrite iteration_unfold.
  destruct (fetch_solve_submit L W st log1) as [[e | response] log2] eqn:Hf; [discriminate|].
  destruct (handle_reply L response) as [e | [r | next_url]] eqn:Hh; [discriminate | |].
  - intros H. injection H as <- <-. right.
    destruct (handle_reply_return _ _ Hh) as [fields [E [J U]]].
    destruct (fetch_solve_submit_post L W _ _ _ _ Hf) as [submit_url [answer [rest [El P]]]].
    now exists fields, submit_url, (make_payload st answer), rest, response.
  - apply IH.
Qed.

(** X15. What [solve_quiz_chain] returns is a JSON object: the timeout result,
    or the parsed reply to the last call made, a POST, and that reply has no
    truthy "url". *)
Theorem chain_result_is_reply (fuel : nat) (start_url email secret : string)
    (log0 : list Event) (result : JSON) (log' : list Event) :
  solve_quiz_chain L W fuel start_url email secret log0 = (inr (Some result), log') ->
  result = timeout_result \/
  exists fields submit_url payload rest response,
    result = JObj fields /\
    log' = EvPost submit_url payload :: rest /\
    client_post W rest submit_url payload = inr response /\
    json_loads L (text response) = Some result /\
    (forall v, lookup "url" fields = Some v -> json_truthy v = false).
Proof. rewrite solve_quiz_chain_unfold. apply chain_loop_result. Qed.

Lemma budget_event_step (st : ChainState) (log log2 : list Event) (next_url : JSON)
    (e : Event) :
  loop_condition W st log = (inr true, EvClock :: log) ->
  iteration L W st (EvClock :: log) = (inr (Continue next_url), log2) ->
  budget_event L W (set_current_url st next_url) log2 e -> budget_event L W st log e.
Proof.
  intros Hc Hi. destruct e; simpl; try easy.
  intros [n [st' [log' [Hit H]]]]. exists (S n), st', log'. split; [| exact H].
  now apply Iterates_step with (EvClock :: log)%list next_url log2.
Qed.

Lemma chain_loop_budget (fuel : nat) :
  forall st log, exists new,
    snd (chain_loop L W fuel st log) = (new ++ log)%list /\
    Forall (budget_event L W st log) new.
Proof.
  induction fuel as [|fuel IH]; intros st log.
  - now exists [].
  - cbn [chain_loop]. unfold bind at 1.
    destruct (json_truthy (current_url st)) eqn:T.
    + rewrite (loop_condition_truthy W st log T).
      destruct (negb (Qle_bool MAX_DURATION_SEC (time W log - start_time st))) eqn:G.
      * assert (B : time W log - start_time st < MAX_DURATION_SEC).
        { apply negb_true_iff in G. apply Qnot_le_lt. intros Hle.
          apply Qle_bool_iff in Hle. congruence. }
        unfold bind at 1. destruct (iteration_calls L W st (EvClock :: log)) as [new1 [E1 F1]].
        assert (F1' : Forall (budget_event L W st log) (new1 ++ [EvClock])).
        { apply Forall_app. split; [| now repeat constructor].
          eapply Forall_impl; [| exact F1]. intros [| | | u p]; simpl; try easy.
          intros [_ [_ Hu]]. exists 0%nat, st, log. repeat split; try assumption. constructor. }
        destruct (iteration L W st (EvClock :: log)) as [[e | [result | next_url]] log2] eqn:Hi;
          simpl in E1; subst log2.
        -- exists (new1 ++ [EvClock])%list. now rewrite <- app_assoc.
        -- exists (new1 ++ [EvClock])%list. now rewrite <- app_assoc.
        -- destruct (IH (set_current_url st next_url) (new1 ++ EvClock :: log)%list)
             as [new2 [E2 F2]].
           exists (new2 ++ new1 ++ [EvClock])%list. rewrite E2. split.
           ++ now rewrite <- !app_assoc.
           ++ apply Forall_app. split; [| exact F1'].
              eapply Forall_impl; [| exact F2]. intros e.
              apply budget_event_step.
              ** rewrite (loop_condition_truthy W st log T). now rewrite G.
              ** exact Hi.
      * exists [EvClock]. split; [reflexivity | now repeat constructor].
    + unfold loop_condition. rewrite T. now exists [].
Qed.

(** X16. No submission is made in an iteration that began after the budget was
    used up: every POST of a chain execution carries the current URL of an
    iteration at whose start the URL was truthy and the clock, read at the top
    of the loop, showed less than [MAX_DURATION_SEC] since the start. *)
Theorem chain_posts_within_budget (fuel : nat) (start_url email secret : string)
    (log0 : list Event) :
  exists new,
    snd (solve_quiz_chain L W fuel start_url email secret log0) = (new ++ log0)%list /\
    Forall (fun e =>
              match e with
              | EvPost _ payload =>
                  exists n st log,
                    Iterates L W n (chain_start W start_url email secret log0)
                             (EvClock :: log0) st log /\
                    p_url payload = current_url st /\
                    json_truthy (current_url st) = true /\
                    time W log - time W log0 < MAX_DURATION_SEC
              | _ => True
              end) new.
Proof.
  rewrite solve_quiz_chain_unfold.
  destruct (chain_loop_budget fuel (chain_start W start_url email secret log0)
              (EvClock :: log0)) as [new [E F]].
  exists (new ++ [EvClock])%list. rewrite E, <- app_assoc. split; [reflexivity|].
  apply Forall_app. split; [| now repeat constructor].
  eapply Forall_impl; [| exact F]. intros [| | | u payload]; simpl; try easy.
Qed.

Lemma count_posts_app (a b : list Event) :
  count_posts (a ++ b) = (count_posts a + count_posts b)%nat.
Proof. unfold count_posts. now rewrite filter_app, length_app. Qed.

Lemma count_clock_app (a b : list Event) :
  count_clock (a ++ b) = (count_clock a + count_clock b)%nat.
Proof. unfold count_clock. now rewrite filter_app, length_app. Qed.

Lemma iteration_counts (st : ChainState) (log : list Event) :
  exists new,
    snd (iteration L W st log) = (new ++ log)%list /\
    (count_posts new <= 1)%nat /\ count_clock new = 0%nat.
Proof.
  destruct (iteration_trace_shape L W st log) as [posts [t [E [P [S _]]]]].
  exists (posts ++ t ++ [EvRender (current_url st)])%list. split.
  - rewrite E. now rewrite <- !app_assoc.
  - rewrite !count_posts_app, !count_clock_app.
    destruct P as [-> | [u [a ->]]];
      destruct S as [-> | [[u' ->] | [u' ->]]]; cbn; split; lia.
Qed.

Lemma chain_loop_counts (fuel : nat) :
  forall st log, exists new,
    snd (chain_loop L W fuel st log) = (new ++ log)%list /\
    (count_posts new <= count_clock new)%nat.
Proof.
  induction fuel as [|fuel IH]; intros st log.
  - exists []. split; [reflexivity | cbn; lia].
  - cbn [chain_loop]. unfold bind at 1.
    destruct (json_truthy (current_url st)) eqn:T.
    + rewrite (loop_condition_truthy W st log T).
      destruct (negb (Qle_bool MAX_DURATION_SEC (time W log - start_time st))).
      * unfold bind at 1. destruct (iteration_counts st (EvClock :: log)) as [new1 [E1 [P1 C1]]].
        assert (K : (count_posts (new1 ++ [EvClock]) <= count_clock (new1 ++ [EvClock]))%nat).
        { rewrite count_posts_app, count_clock_app. cbn. lia. }
        destruct (iteration L W st (EvClock :: log)) as [[e | [result | next_url]] log2];
          simpl in E1; subst log2.
        -- exists (new1 ++ [EvClock])%list. now rewrite <- app_assoc.
        -- exists (new1 ++ [EvClock])%list. now rewrite <- app_assoc.
        -- destruct (IH (set_current_url st next_url) (new1 ++ EvClock :: log)%list)
             as [new2 [E2 K2]].
           exists (new2 ++ new1 ++ [EvClock])%list. rewrite E2. split.
           ++ now rewrite <- !app_assoc.
           ++ rewrite count_posts_app, count_clock_app. lia.
      * exists [EvClock]. split; [reflexivity | cbn; lia].
    + unfold loop_condition. rewrite T. exists []. split; [reflexivity | cbn; lia].
Qed.

(** X17. A chain execution reads the clock more often than it submits: once at
    the start, and once at the top of the loop before every iteration, each of
    which submits at most once. *)
Theorem chain_posts_fewer_than_checks (fuel : nat) (start_url email secret : string)
    (log0 : list Event) :
  exists new,
    snd (solve_quiz_chain L W fuel start_url email secret log0) = (new ++ log0)%list /\
    (count_posts new < count_clock new)%nat.
Proof.
  rewrite solve_quiz_chain_unfold.
  destruct (chain_loop_counts fuel (chain_start W start_url email secret log0)
              (EvClock :: log0)) as [new [E K]].
  exists (new ++ [EvClock])%list. rewrite E, <- app_assoc. split; [reflexivity|].
  rewrite count_posts_app, count_clock_app. cbn. lia.
Qed.

End ChainRuns.

(** ** Chains that fail, go on and end *)

(** The submission cannot be delivered. *)
Lemma chain_error_propagates_witness :
  solve_quiz_chain demo_library offline_world (0 + 1)
    "https://quiz.example/q1" "student@example.org" "s3cret" [] =
  (inl (LibraryError "ConnectError"), log_after_first).
Proof.
  exact (chain_error_propagates demo_library offline_world 0 0
           "https://quiz.example/q1" "student@example.org" "s3cret" []
           (chain_start offline_world "https://quiz.example/q1"
              "student@example.org" "s3cret" [])
           [EvClock] [EvClock; EvClock] (LibraryError "ConnectError") log_after_first
           (Iterates_zero _ _ _ _) eq_refl eq_refl).
Defined.

(** The server answers the second question with an empty list. *)
Lemma chain_non_object_reply_witness :
  solve_quiz_chain demo_library (quiz_world (stepping_clock 1) "[]") (0 + 1)
    "https://quiz.example/q2" "student@example.org" "s3cret" [] =
  (inl (AttributeError "object has no attribute 'get'"),
   [EvPost "https://quiz.example/submit" second_payload;
    EvRender (JStr "https://quiz.example/q2"); EvClock; EvClock]).
Proof.
  refine (chain_non_object_reply demo_library (quiz_world (stepping_clock 1) "[]") 0 0
            "https://quiz.example/q2" "student@example.org" "s3cret" []
            (chain_start (quiz_world (stepping_clock 1) "[]") "https://quiz.example/q2"
               "student@example.org" "s3cret" [])
            [EvClock] [EvClock; EvClock] (ok_response "[]") _ (JArr [])
            (Iterates_zero _ _ _ _) eq_refl eq_refl eq_refl _).
  intros fields H. discriminate H.
Defined.

Lemma chain_follows_url_witness :
  Iterates sample_library (quiz_world (stepping_clock 1) reply_done) 1
    (chain_start (quiz_world (stepping_clock 1) reply_done) "https://quiz.example/q1"
       "student@example.org" "s3cret" [])
    [EvClock] (second_state (stepping_clock 1)) log_after_first /\
  solve_quiz_chain sample_library (quiz_world (stepping_clock 1) reply_done) (0 + 3)
    "https://quiz.example/q1" "student@example.org" "s3cret" [] =
  chain_loop sample_library (quiz_world (stepping_clock 1) reply_done) 2
    (second_state (stepping_clock 1)) log_after_first.
Proof.
  pose proof (chain_follows_url sample_library (quiz_world (stepping_clock 1) reply_done) 0 2
                "https://quiz.example/q1" "student@example.org" "s3cret" []
                (chain_start (quiz_world (stepping_clock 1) reply_done)
                   "https://quiz.example/q1" "student@example.org" "s3cret" [])
                [EvClock] [EvClock; EvClock] (ok_response reply_next) log_after_first
                [("correct", JBool true); ("url", JStr "https://quiz.example/q2")]
                (JStr "https://quiz.example/q2")
                (Iterates_zero _ _ _ _) eq_refl eq_refl eq_refl eq_refl eq_refl) as H.
  exact (conj (proj1 H) (proj1 (proj2 H))).
Defined.

Lemma chain_result_is_reply_witness :
  JObj [("correct", JBool true); ("url", JNull)] = timeout_result \/
  exists fields submit_url payload rest response,
    JObj [("correct", JBool true); ("url", JNull)] = JObj fields /\
    log_after_second = EvPost submit_url payload :: rest /\
    client_post (quiz_world (stepping_clock 1) reply_done) rest submit_url payload =
      inr response /\
    json_loads sample_library (text response) =
      Some (JObj [("correct", JBool true); ("url", JNull)]) /\
    (forall v, lookup "url" fields = Some v -> json_truthy v = false).
Proof.
  exact (chain_result_is_reply sample_library (quiz_world (stepping_clock 1) reply_done) 5
           "https://quiz.example/q1" "student@example.org" "s3cret" []
           (JObj [("correct", JBool true); ("url", JNull)]) log_after_second eq_refl).
Defined.

(** A chain over a scrape page and its data page. *)
Example solve_quiz_chain_scrape :
  solve_quiz_chain demo_library demo_world 3
    "https://quiz.example/scrape" "student@example.org" "s3cret" [] =
  (inr (Some (JObj [("correct", JBool true); ("url", JNull)])),
   [EvPost "https://quiz.example/submit"
      {| p_email := "student@example.org"; p_secret := "s3cret";
         p_url := JStr "https://quiz.example/scrape"; p_answer := AnswerStr "32000" |};
    EvRender (JStr "https://quiz.example/demo-scrape-data?email=me");
    EvRender (JStr "https://quiz.example/scrape");
    EvClock; EvClock]).
Proof. reflexivity. Qed.

(** A chain over an audio page: the answer is an integer. *)
Example solve_quiz_chain_audio :
  solve_quiz_chain demo_library demo_world 3
    "https://quiz.example/audio" "student@example.org" "s3cret" [] =
  (inr (Some (JObj [("correct", JBool true); ("url", JNull)])),
   [EvPost "https://quiz.example/submit"
      {| p_email := "student@example.org"; p_secret := "s3cret";
         p_url := JStr "https://quiz.example/audio"; p_answer := AnswerInt 30 |};
    EvGet "https://quiz.example/files/data.csv";
    EvRender (JStr "https://quiz.example/audio");
    EvClock; EvClock]).
Proof. reflexivity. Qed.

(** ** The request handler *)

Lemma secret_differs_false (given : string) (expected : option string) :
  secret_differs given expected = false <-> expected = Some given.
Proof.
  unfold secret_differs. destruct expected as [s |]; [| split; discriminate].
  rewrite negb_false_iff, String.eqb_eq. split; [now intros -> | intros H; now injection H].
Qed.

Section HandlerFacts.

Variable L : Library.
Variable W : World.
Variable EXPECTED_SECRET : option string.
Variable validate_str : JSON -> option string.

(** X18. An [HTTPException] is raised only before the chain is started, so no
    call has been made by then.  It is 400 for a body that is not JSON or gives
    no valid request, and 403 only for a valid request whose secret differs
    from the expected one. *)
Theorem handle_quiz_rejection (fuel : nat) (body : string) (log : list Event)
    (exc : HTTPException) (log' : list Event) :
  handle_quiz L W EXPECTED_SECRET validate_str fuel body log = (inr (Some (inl exc)), log') ->
  log' = log /\
  ((exc = {| status_code := 400; detail := "Invalid JSON" |} /\ json_loads L body = None) \/
   (exc = {| status_code := 400; detail := "Missing/invalid fields" |} /\
    exists data, json_loads L body = Some data /\ validate_request validate_str data = None) \/
   (exc = {| status_code := 403; detail := "Invalid secret" |} /\
    exists data qr,
      json_loads L body = Some data /\
      validate_request validate_str data = Some qr /\
      EXPECTED_SECRET <> Some (qr_secret qr))).
Proof.
  unfold handle_quiz.
  destruct (json_loads L body) as [data |].
  - destruct (validate_request validate_str data) as [qr |] eqn:V.
    + destruct (secret_differs (qr_secret qr) EXPECTED_SECRET) eqn:S.
      * intros H. injection H as <- <-. split; [reflexivity|]. right; right.
        split; [reflexivity|]. exists data, qr. repeat split; try assumption.
        intros E. apply secret_differs_false in E. congruence.
      * unfold bind, ret.
        destruct (solve_quiz_chain L W fuel (qr_url qr) (qr_email qr) (qr_secret qr) log)
          as [[e | [r |]] l]; discriminate.
    + intros H. injection H as <- <-. split; [reflexivity|]. right; left.
      split; [reflexivity|]. now exists data.
  - intros H. injection H as <- <-. split; [reflexivity|]. now left.
Qed.

(** X19. The reply of a request that is let through does not depend on how the
    chain ended: any result, the timeout result included, gives the same "ok"
    reply; an exception of the chain is not caught. *)
Theorem handle_quiz_reply (fuel : nat) (body : string) (log : list Event)
    (data : JSON) (qr : QuizRequest) :
  json_loads L body = Some data ->
  validate_request validate_str data = Some qr ->
  EXPECTED_SECRET = Some (qr_secret qr) ->
  handle_quiz L W EXPECTED_SECRET validate_str fuel body log =
  match solve_quiz_chain L W fuel (qr_url qr) (qr_email qr) (qr_secret qr) log with
  | (inl e, log') => (inl e, log')
  | (inr (Some _), log') => (inr (Some (inr ok_reply)), log')
  | (inr None, log') => (inr None, log')
  end.
Proof.
  intros J V S. unfold handle_quiz. rewrite J, V.
  apply secret_differs_false in S. rewrite S. unfold bind, ret.
  now destruct (solve_quiz_chain L W fuel (qr_url qr) (qr_email qr) (qr_secret qr) log)
    as [[e | [r |]] l].
Qed.

(** X20. Every payload posted while a request is handled carries the expected
    secret: the chain is run only with the secret that passed the check, and
    that is the one it sends. *)
Theorem handle_quiz_posts_expected_secret (fuel : nat) (body : string) (log : list Event) :
  exists new,
    snd (handle_quiz L W EXPECTED_SECRET validate_str fuel body log) = (new ++ log)%list /\
    Forall (fun e =>
              match e with
              | EvPost _ payload => EXPECTED_SECRET = Some (p_secret payload)
              | _ => True
              end) new.
Proof.
  unfold handle_quiz.
  destruct (json_loads L body) as [data |]; [| now exists []].
  destruct (validate_request validate_str data) as [qr |]; [| now exists []].
  destruct (secret_differs (qr_secret qr) EXPECTED_SECRET) eqn:S; [now exists [] |].
  apply secret_differs_false in S.
  destruct (chain_loop_calls L W fuel
              (chain_start W (qr_url qr) (qr_email qr) (qr_secret qr) log) (EvClock :: log))
    as [new [E F]].
  exists (new ++ [EvClock])%list. split.
  - unfold bind, ret. rewrite <- app_assoc. cbn [app]. rewrite <- E.
    rewrite <- solve_quiz_chain_unfold.
    now destruct (solve_quiz_chain L W fuel (qr_url qr) (qr_email qr) (qr_secret qr) log)
      as [[e | [r |]] l].
  - apply Forall_app. split; [| now repeat constructor].
    eapply Forall_impl; [| exact F]. intros [| | | u payload]; simpl; try easy.
    intros [n [st [lg [Hit [_ [H2 _]]]]]].
    destruct (iterates_keeps L W _ _ _ _ _ Hit) as [_ [K2 _]].
    rewrite H2, K2. exact S.
Qed.

End HandlerFacts.

(** X21. When the environment names no secret, every request is refused with
    an [HTTPException], whatever its body, and the solver is never started. *)
Theorem handle_quiz_unset_secret (L : Library) (W : World)
    (validate_str : JSON -> option string) (fuel : nat) (body : string) (log : list Event) :
  exists exc, handle_quiz L W None validate_str fuel body log = (inr (Some (inl exc)), log).
Proof.
  unfold handle_quiz.
  destruct (json_loads L body) as [data |]; [| now eexists].
  destruct (validate_request validate_str data) as [qr |]; now eexists.
Qed.

Lemma handle_quiz_rejection_witness :
  [EvClock] = [EvClock] /\
  (({| status_code := 403; detail := "Invalid secret" |} =
    {| status_code := 400; detail := "Invalid JSON" |} /\
    json_loads demo_library (request_body "guess") = None) \/
   ({| status_code := 403; detail := "Invalid secret" |} =
    {| status_code := 400; detail := "Missing/invalid fields" |} /\
    exists data, json_loads demo_library (request_body "guess") = Some data /\
                 validate_request strings_only data = None) \/
   ({| status_code := 403; detail := "Invalid secret" |} =
    {| status_code := 403; detail := "Invalid secret" |} /\
    exists data qr,
      json_loads demo_library (request_body "guess") = Some data /\
      validate_request strings_only data = Some qr /\
      Some "s3cret" <> Some (qr_secret qr))).
Proof.
  exact (handle_quiz_rejection demo_library (quiz_world (stepping_clock 1) reply_done)
           (Some "s3cret") strings_only 5 (request_body "guess") [EvClock]
           {| status_code := 403; detail := "Invalid secret" |} [EvClock] eq_refl).
Defined.

(** The chain ran into the budget; the reply is "ok" all the same. *)
Lemma handle_quiz_reply_witness :
  handle_quiz demo_library (quiz_world (stepping_clock 100) reply_done)
    (Some "s3cret") strings_only 5 (request_body "s3cret") [] =
  (inr (Some (inr ok_reply)), EvClock :: log_after_first).
Proof.
  exact (handle_quiz_reply demo_library (quiz_world (stepping_clock 100) reply_done)
           (Some "s3cret") strings_only 5 (request_body "s3cret") []
           (JObj [("email", JStr "student@example.org");
                  ("secret", JStr "s3cret");
                  ("url", JStr "https://quiz.example/q1")])
           {| qr_email := "student@example.org"; qr_secret := "s3cret";
              qr_url := "https://quiz.example/q1" |}
           eq_refl eq_refl eq_refl).
Defined.

Example handle_quiz_sample_rejections :
  handle_quiz demo_library demo_world (Some "s3cret") strings_only 5 "not json" [] =
    (inr (Some (inl {| status_code := 400; detail := "Invalid JSON" |})), []) /\
  handle_quiz demo_library demo_world (Some "s3cret") strings_only 5 "[]" [] =
    (inr (Some (inl {| status_code := 400; detail := "Missing/invalid fields" |})), []) /\
  handle_quiz demo_library demo_world (Some "s3cret") strings_only 5 reply_done [] =
    (inr (Some (inl {| status_code := 400; detail := "Missing/invalid fields" |})), []).
Proof. repeat split. Qed.

(** ** The diagnostic snippet *)

Lemma length_slice_to (n : nat) (s : string) :
  String.length (slice_to n s) = Nat.min n (String.length s).
Proof.
  revert s; induction n as [|n IH]; intros s; [reflexivity|].
  destruct s as [|c s]; [reflexivity|]. simpl. now rewrite IH.
Qed.

Lemma slice_to_all (n : nat) (s : string) :
  (String.length s <= n)%nat -> slice_to n s = s.
Proof.
  revert s; induction n as [|n IH]; intros s H.
  - destruct s; [reflexivity | simpl in H; lia].
  - destruct s as [|c s]; [reflexivity|]. simpl in *. rewrite IH; [reflexivity | lia].
Qed.

Lemma slice_to_split (n : nat) (s : string) :
  exists rest, s = slice_to n s ++ rest.
Proof.
  revert s; induction n as [|n IH]; intros s; [now exists s|].
  destruct s as [|c s]; [now exists ""|].
  destruct (IH s) as [rest E]. exists rest. simpl. now rewrite <- E.
Qed.

Lemma length_replace_newlines (s : string) :
  String.length (replace_newlines s) = String.length s.
Proof. induction s as [|c s IH]; simpl; [reflexivity | now rewrite IH]. Qed.

Lemma replace_newlines_no_lf (s : string) :
  PyStr.all_chars (fun c => negb (PyStr.is_lf c)) (replace_newlines s) = true.
Proof.
  induction s as [|c s IH]; simpl; [reflexivity|]. rewrite IH.
  destruct (PyStr.is_lf c) eqn:E; [reflexivity | now rewrite E].
Qed.

Lemma all_chars_slice_to (p : ascii -> bool) (n : nat) (s : string) :
  PyStr.all_chars p s = true -> PyStr.all_chars p (slice_to n s) = true.
Proof.
  intros H. destruct (slice_to_split n s) as [rest E].
  rewrite E, all_chars_app in H. now apply andb_true_iff in H as [H _].
Qed.

Lemma replace_newlines_slice_to (n : nat) (s : string) :
  replace_newlines (slice_to n s) = slice_to n (replace_newlines s).
Proof.
  revert s; induction n as [|n IH]; intros s; [reflexivity|].
  destruct s as [|c s]; [reflexivity|]. simpl. now rewrite IH.
Qed.

Lemma slice_to_slice_to (n m : nat) (s : string) :
  slice_to n (slice_to (n + m) s) = slice_to n s.
Proof.
  revert s; induction n as [|n IH]; intros s; [reflexivity|].
  destruct s as [|c s]; [reflexivity|]. cbn [Nat.add slice_to]. now rewrite IH.
Qed.

(** X22. The snippet shown for a page holds no line feed and at most 203
    characters.  A page of at most 200 characters is shown whole, line feeds
    turned into spaces; of a longer page the first 200 characters are shown,
    followed by "...". *)
Theorem snippet_shown_bounds (html : string) :
  (String.length (snippet_shown html) <= 203)%nat /\
  PyStr.all_chars (fun c => negb (PyStr.is_lf c)) (snippet_shown html) = true /\
  ((String.length html <= 200)%nat -> snippet_shown html = replace_newlines html) /\
  ((200 < String.length html)%nat ->
   snippet_shown html = replace_newlines (slice_to 200 html) ++ "...").
Proof.
  unfold snippet_shown, snippet.
  assert (Hlen : String.length (replace_newlines (slice_to 600 html)) =
                 Nat.min 600 (String.length html))
    by now rewrite length_replace_newlines, length_slice_to.
  assert (Hhead : slice_to 200 (replace_newlines (slice_to 600 html)) =
                  replace_newlines (slice_to 200 html)).
  { rewrite <- replace_newlines_slice_to. f_equal.
    exact (slice_to_slice_to 200 400 html). }
  rewrite Hhead, Hlen. split; [| split; [| split]].
  - rewrite length_append, length_replace_newlines, length_slice_to.
    destruct (200 <? Nat.min 600 (String.length html))%nat; cbn [String.length]; lia.
  - rewrite all_chars_app, replace_newlines_no_lf.
    now destruct (200 <? Nat.min 600 (String.length html))%nat.
  - intros H. rewrite (slice_to_all 200 html H).
    replace (200 <? Nat.min 600 (String.length html))%nat with false
      by (symmetry; apply Nat.ltb_ge; lia).
    apply append_empty_r.
  - intros H.
    replace (200 <? Nat.min 600 (String.length html))%nat with true
      by (symmetry; apply Nat.ltb_lt; lia).
    reflexivity.
Qed.

(** ** The answer that is submitted *)

(** X23. The submission of an iteration goes to the submit URL resolved from
    the rendered page, and the kind of answer follows the page's type: a
    non-empty string of digits for "scrape", an integer for "audio", and the
    fixed string "hello-from-agent", with no solver call, for "generic". *)
Theorem iteration_answer_by_type (L : Library) (W : World) (st : ChainState)
    (log : list Event) (html : string) (response : Response) (log2 : list Event) :
  fetch_rendered_html_sync W log (current_url st) = inr html ->
  fetch_solve_submit L W st log = (inr response, log2) ->
  exists submit_url answer rest,
    log2 = EvPost submit_url (make_payload st answer) :: rest /\
    build_submit_url L html (current_url st) = inr submit_url /\
    (detect_quiz_type html = "scrape" ->
     exists s, answer = AnswerStr s /\ PyStr.truthy s = true /\
               PyStr.all_chars PyStr.is_digit s = true) /\
    (detect_quiz_type html = "audio" -> exists z, answer = AnswerInt z) /\
    (detect_quiz_type html = "generic" ->
     answer = AnswerStr "hello-from-agent" /\ rest = EvRender (current_url st) :: log).
Proof.
  intros Hr. unfold fetch_solve_submit, bind, render, lift, post. rewrite Hr.
  destruct (build_submit_url L html (current_url st)) as [e | submit_url]; [discriminate|].
  destruct (solve L W (detect_quiz_type html) html (current_url st)
              (EvRender (current_url st) :: log)) as [[e | answer] rest] eqn:Hs;
    [discriminate|].
  intros H. injection H as _ <-. exists submit_url, answer, rest.
  split; [reflexivity | split; [reflexivity |]].
  unfold solve, bind, ret in Hs. split; [| split]; intros T; rewrite T in Hs; cbn in Hs.
  - pose proof (solve_scrape_question_shape L W html (current_url st)
                  (EvRender (current_url st) :: log)) as S.
    destruct (solve_scrape_question L W html (current_url st)
                (EvRender (current_url st) :: log)) as [[e | a] l]; [discriminate|].
    injection Hs as <- <-. destruct S as [S1 [S2 _]]. now exists a.
  - destruct (solve_audio_csv_question L W html (current_url st)
                (EvRender (current_url st) :: log)) as [[e | a] l]; [discriminate|].
    injection Hs as <- <-. now exists a.
  - injection Hs as <- <-. now split.
Qed.

Lemma iteration_answer_by_type_witness :
  exists submit_url answer rest,
    [EvPost "https://quiz.example/submit"
       {| p_email := "student@example.org"; p_secret := "s3cret";
          p_url := JStr "https://quiz.example/scrape"; p_answer := AnswerStr "32000" |};
     EvRender (JStr "https://quiz.example/demo-scrape-data?email=me");
     EvRender (JStr "https://quiz.example/scrape");
     EvClock; EvClock] =
    EvPost submit_url
      (make_payload (chain_start demo_world "https://quiz.example/scrape"
                       "student@example.org" "s3cret" []) answer) :: rest /\
    build_submit_url demo_library scrape_page (JStr "https://quiz.example/scrape") =
      inr submit_url /\
    (detect_quiz_type scrape_page = "scrape" ->
     exists s, answer = AnswerStr s /\ PyStr.truthy s = true /\
               PyStr.all_chars PyStr.is_digit s = true) /\
    (detect_quiz_type scrape_page = "audio" -> exists z, answer = AnswerInt z) /\
    (detect_quiz_type scrape_page = "generic" ->
     answer = AnswerStr "hello-from-agent" /\
     rest = [EvRender (JStr "https://quiz.example/scrape"); EvClock; EvClock]).
Proof.
  exact (iteration_answer_by_type demo_library demo_world
           (chain_start demo_world "https://quiz.example/scrape"
              "student@example.org" "s3cret" [])
           [EvClock; EvClock] scrape_page (ok_response reply_done) _ eq_refl eq_refl).
Defined.

(** ** The chain ends *)

Section Termination.

Variable L : Library.
Variable W : World.

(** Between a reading of the clock and any later one at least a second passes. *)
Hypothesis ticking : forall log later, time W log + 1 <= time W (later ++ EvClock :: log)%list.

Lemma chain_loop_ends (f : nat) :
  forall st log,
    180 <= (time W log - start_time st) + inject_Z (Z.of_nat f) ->
    fst (chain_loop L W (S f) st log) <> inr None.
Proof.
  induction f as [|f IH]; intros st log Hb.
  - cbn [chain_loop]. unfold bind at 1.
    destruct (json_truthy (current_url st)) eqn:T.
    + rewrite (loop_condition_truthy W st log T).
      assert (E : Qle_bool MAX_DURATION_SEC (time W log - start_time st) = true).
      { apply Qle_bool_iff. unfold MAX_DURATION_SEC.
        change (inject_Z (Z.of_nat 0)) with 0 in Hb. lra. }
      rewrite E. cbn. discriminate.
    + rewrite (loop_condition_falsy W st log T). cbn. discriminate.
  - remember (S f) as fuel eqn:Ef. cbn [chain_loop]. unfold bind at 1.
    destruct (json_truthy (current_url st)) eqn:T.
    + rewrite (loop_condition_truthy W st log T).
      destruct (negb (Qle_bool MAX_DURATION_SEC (time W log - start_time st)));
        [| cbn; discriminate].
      unfold bind at 1. destruct (iteration_calls L W st (EvClock :: log)) as [new [E _]].
      destruct (iteration L W st (EvClock :: log)) as [[e | [result | next_url]] log2];
        simpl in E; subst log2; try (cbn; discriminate).
      subst fuel. apply IH. cbn [start_time set_current_url].
      pose proof (ticking log new) as Ht.
      rewrite Nat2Z.inj_succ, <- Z.add_1_r, inject_Z_plus in Hb.
      change (inject_Z 1) with 1 in Hb. lra.
    + rewrite (loop_condition_falsy W st log T). cbn. discriminate.
Qed.

(** X24. The loop cannot go on for ever when time passes: if at least a second
    lies between any two readings of the clock, the chain has ended (with a
    result or an exception) within 181 turns of the loop. *)
Theorem solve_quiz_chain_ends (k : nat) (start_url email secret : string)
    (log0 : list Event) :
  fst (solve_quiz_chain L W (181 + k) start_url email secret log0) <> inr None.
Proof.
  rewrite solve_quiz_chain_unfold. change (181 + k)%nat with (S (180 + k)).
  apply chain_loop_ends. cbn [start_time chain_start].
  pose proof (ticking log0 []) as Ht. cbn [app] in Ht.
  rewrite Nat2Z.inj_add, inject_Z_plus.
  assert (0 <= inject_Z (Z.of_nat k)).
  { change 0 with (inject_Z 0). rewrite <- Zle_Qle. lia. }
  change (inject_Z (Z.of_nat 180)) with 180. lra.
Qed.

End Termination.

Lemma stepping_clock_ticks (log later : list Event) :
  stepping_clock 1 log + 1 <= stepping_clock 1 (later ++ EvClock :: log)%list.
Proof.
  unfold stepping_clock. rewrite length_app. cbn [List.length].
  change 1 with (inject_Z 1). rewrite <- inject_Z_plus, <- Zle_Qle. lia.
Qed.

Lemma solve_quiz_chain_ends_witness :
  fst (solve_quiz_chain sample_library (quiz_world (stepping_clock 1) reply_next) (181 + 0)
         "https://quiz.example/q1" "student@example.org" "s3cret" []) <> inr None.
Proof.
  exact (solve_quiz_chain_ends sample_library (quiz_world (stepping_clock 1) reply_next)
           stepping_clock_ticks 0 "https://quiz.example/q1" "student@example.org" "s3cret" []).
Defined.
